(** * Coinbase Pro order book data source

    A shallow embedding of
    [hummingbot/market/coinbase_pro/coinbase_pro_api_order_book_data_source.py]
    (class [CoinbaseProAPIOrderBookDataSource]) and the properties of its
    market directory, snapshot fetcher, tracking-entry builder and streaming
    diff listener.

    Coroutines are functions in a state-and-exception monad over a [World]
    that holds what the exchange will answer, a clock and a trace of the
    effects performed.  Python floats are Rocq's binary64 [float]; durations
    are rationals. *)

From Stdlib Require Import ZArith QArith Qround String List Floats Lia Lqa.
From stdpp Require Import gmap strings list sorting pretty.

Open Scope string_scope.
Open Scope list_scope.
#[local] Set Warnings "-clear-no-such-hyp".

(** ** Exceptions and outcomes *)

(** The exception classes the module raises or handles.  [CancelledError]
    is [asyncio.CancelledError]; every other constructor is a subclass of
    [Exception]. *)
Inductive exn : Type :=
| CancelledError
| TimeoutError                      (* asyncio.TimeoutError *)
| ConnectionClosed                  (* websockets.exceptions.ConnectionClosed *)
| IOError (msg : string)
| ValueError (msg : string)
| KeyError (key : string)
| TypeError (msg : string)
| OtherException (name : string).

(** What [except Exception] catches: everything but a cancellation, which
    derives from [BaseException] (Python 3.8 and later). *)
Definition is_Exception (e : exn) : bool :=
  match e with
  | CancelledError => false
  | _ => true
  end.

(** The result of running a coroutine against a finite script of the
    environment: it returned, it raised, or the script ended while the
    coroutine was still suspended on an await. *)
Inductive outcome (A : Type) : Type :=
| Return (a : A)
| Raise (e : exn)
| Unfinished.
Arguments Return {A} a.
Arguments Raise {A} e.
Arguments Unfinished {A}.

(** The result of a call that awaits nothing: a value or an exception. *)
Inductive result (A : Type) : Type :=
| Ok (a : A)
| Error (e : exn).
Arguments Ok {A} a.
Arguments Error {A} e.

Definition outcome_of {A} (r : result A) : outcome A :=
  match r with
  | Ok a => Return a
  | Error e => Raise e
  end.

Definition obind {A B} (r : result A) (k : A -> result B) : result B :=
  match r with
  | Ok a => k a
  | Error e => Error e
  end.

(** ** JSON values *)

#[local] Set Warnings "-register-all".
Inductive JSON : Type :=
| JNull
| JBool (b : bool)
| JInt (n : Z)
| JFloat (x : float)
| JStr (s : string)
| JList (items : list JSON)
| JDict (fields : gmap string JSON).

(** [msg.get(key, None)]: only a dictionary has [get]. *)
Definition dict_get (msg : JSON) (key : string) : result (option JSON) :=
  match msg with
  | JDict fields => Ok (fields !! key)
  | _ => Error (OtherException "AttributeError")
  end.

(** [key in msg] for a dictionary [msg]. *)
Definition dict_has (fields : gmap string JSON) (key : string) : bool :=
  bool_decide (is_Some (fields !! key)).

(** [x == s] for a string literal [s]. *)
Definition str_eq (x : JSON) (s : string) : bool :=
  match x with
  | JStr t => String.eqb t s
  | _ => false
  end.

(** [x in [s1, ..., sn]] for string literals. *)
Definition str_in (x : JSON) (l : list string) : bool :=
  existsb (str_eq x) l.

(** ** The world: scripted exchange, clock, effect trace and output queue *)

(** An aiohttp response: its status and its decoded JSON body. *)
Record ClientResponse : Type := {
  status : Z;
  json : JSON
}.

(** What one [client.get] meets: a response, or an exception raised by the
    transport. *)
Inductive reply : Type :=
| Reply (r : ClientResponse)
| Fault (e : exn).

(** The calls a coroutine issues, as they appear in the trace. *)
Inductive event : Type :=
| EvGet (url : string)              (* client.get(url) *)
| EvSleep (seconds : Q)             (* asyncio.sleep(seconds) *)
| EvLogError (text : string)
| EvLogWarning (text : string)
| EvLogInfo (text : string)
| EvLogDebug (text : string)
| EvConnect (url : string)          (* websockets.connect(url) *)
| EvSend (request : JSON)           (* ws.send(ujson.dumps(request)) *)
| EvRecv (timeout : Q)              (* wait_for(ws.recv(), timeout) *)
| EvPing                            (* ws.ping() *)
| EvPong (timeout : Q)              (* wait_for(pong_waiter, timeout) *)
| EvClose.                          (* ws.close() *)

(** [OBM] is the type of order book messages, the elements of the output
    queue. *)
Record World (OBM : Type) : Type := {
  replies : list reply;      (* what the REST endpoint answers, in request order *)
  now : Q;                   (* the clock read by time.time() *)
  trace : list event;        (* calls issued so far, oldest first *)
  output : list OBM          (* the asyncio.Queue handed to a listener, oldest first *)
}.
Arguments replies {OBM} w.
Arguments now {OBM} w.
Arguments trace {OBM} w.
Arguments output {OBM} w.
Arguments Build_World {OBM}.

Definition coroutine (OBM A : Type) : Type := World OBM -> outcome A * World OBM.

Section Monad.
Context {OBM : Type}.
Local Abbreviation M := (coroutine OBM).

Definition ret {A} (a : A) : M A := fun w => (Return a, w).
Definition raise {A} (e : exn) : M A := fun w => (Raise e, w).
Definition lift {A} (r : result A) : M A := fun w => (outcome_of r, w).

(** A coroutine the script leaves suspended. *)
Definition unfinished {A} : M A := fun w => (Unfinished, w).

Definition bind {A B} (m : M A) (k : A -> M B) : M B :=
  fun w =>
    match m w with
    | (Return a, w') => k a w'
    | (Raise e, w') => (Raise e, w')
    | (Unfinished, w') => (Unfinished, w')
    end.

(** [try: m except Exception: h], the handler not naming the exception.
    [CancelledError] is not an [Exception] and passes through. *)
Definition try_except_Exception {A} (m : M A) (h : M A) : M A :=
  fun w =>
    match m w with
    | (Raise e, w') => if is_Exception e then h w' else (Raise e, w')
    | r => r
    end.

Definition emit (ev : event) : M unit :=
  fun w => (Return tt, Build_World (replies w) (now w) (trace w ++ [ev]) (output w)).

(** Time passing while the coroutine is suspended. *)
Definition elapse (seconds : Q) : M unit :=
  fun w => (Return tt, Build_World (replies w) (now w + seconds)%Q (trace w) (output w)).

(** [await asyncio.sleep(seconds)] *)
Definition sleep (seconds : Q) : M unit :=
  bind (emit (EvSleep seconds)) (fun _ => elapse seconds).

(** [time.time()] *)
Definition time : M Q := fun w => (Return (now w), w).

(** [output.put_nowait(msg)] on an unbounded queue. *)
Definition put_nowait (msg : OBM) : M unit :=
  fun w => (Return tt, Build_World (replies w) (now w) (trace w) (output w ++ [msg])).

(** [async with client.get(url) as response]: one request, answered by the
    next scripted reply. *)
Definition client_get (url : string) : M ClientResponse :=
  fun w =>
    let w1 := Build_World (tl (replies w)) (now w) (trace w ++ [EvGet url]) (output w) in
    match replies w with
    | [] => (Unfinished, w1)
    | Reply r :: _ => (Return r, w1)
    | Fault e :: _ => (Raise e, w1)
    end.

End Monad.

Notation "x <- m ;; k" := (bind m (fun x => k))
  (at level 100, m at next level, right associativity).
Notation "m ;; k" := (bind m (fun _ => k))
  (at level 100, right associativity).

(** The URLs requested in a trace. *)
Definition requests (t : list event) : list string :=
  omap (fun ev => match ev with EvGet url => Some url | _ => None end) t.

(** The durations slept in a trace. *)
Definition sleeps (t : list event) : list Q :=
  omap (fun ev => match ev with EvSleep d => Some d | _ => None end) t.

(** ** Module constants *)

Definition COINBASE_REST_URL : string := "https://api.pro.coinbase.com".
Definition COINBASE_WS_FEED : string := "wss://ws-feed.pro.coinbase.com".
Definition MAX_RETRIES : nat := 20.
Definition NaN : float := nan.
Definition MESSAGE_TIMEOUT : Q := 30.
Definition PING_TIMEOUT : Q := 10.

(** ** The scripted websocket *)

(** What an awaited operation does when nothing cuts the wait short: it
    completes with a value or raises after [latency] seconds, or it never
    completes. *)
Inductive awaited (A : Type) : Type :=
| After (latency : Q) (a : A)
| FailsAfter (latency : Q) (e : exn)
| Never.
Arguments After {A} latency a.
Arguments FailsAfter {A} latency e.
Arguments Never {A}.

(** A text frame as received: the JSON value it spells, or text that is
    not JSON. *)
Inductive frame : Type :=
| Text (value : JSON)
| Garbled.

(** [ujson.loads(raw_msg)] *)
Definition loads (raw_msg : frame) : result JSON :=
  match raw_msg with
  | Text value => Ok value
  | Garbled => Error (ValueError "Expected object or value")
  end.

(** [x is None] *)
Definition is_None (x : JSON) : bool :=
  match x with
  | JNull => true
  | _ => false
  end.

(** What the connection holds for one turn of the receive loop:
    [ws.recv()], and, should the code ping, [ws.ping()] and the pong
    waiter it returns. *)
Record iteration : Type := {
  recv : awaited frame;
  ping : awaited (awaited unit)
}.

(** How a resumed [_inner_messages] generator hands control back: it
    yields a frame, it goes round its loop again without yielding, or it
    returns. *)
Inductive generator_step : Type :=
| Yield (raw_msg : frame)
| Resume
| Stop.

(** What the environment holds for one pass of the listener's outer loop. *)
Record cycle : Type := {
  connect : awaited unit;            (* websockets.connect(COINBASE_WS_FEED) *)
  send : awaited unit;               (* ws.send(subscribe_request) *)
  turns : list iteration;            (* the turns of the receive loop *)
  cancelled_in_cooldown : bool       (* a cancellation during sleep(30.0) *)
}.

Section DataSource.

(** The order book messages of [hummingbot.core.data_type.order_book_message]. *)
Context {OrderBookMessage : Type}.
Local Abbreviation M := (coroutine OrderBookMessage).

(** ** Snapshot fetcher *)

(** [get_snapshot(client, trading_pair)] *)
Definition get_snapshot (trading_pair : string) : M JSON :=
  let product_order_book_url :=
    COINBASE_REST_URL +:+ "/products/" +:+ trading_pair +:+ "/book?level=3" in
  response <- client_get product_order_book_url ;;
  if negb (status response =? 200)%Z then
    raise (IOError ("Error fetching Coinbase Pro market snapshot for " +:+ trading_pair))
  else
    let data := json response in
    ret data.

(** ** Exchange market directory *)

(** [name.endswith(suffix)] *)
Definition endswith (name suffix : string) : bool :=
  let n := String.length name in
  let m := String.length suffix in
  (m <=? n)%nat && String.eqb (substring (n - m) m name) suffix.

(** [name.endswith((s1, ..., sn))] *)
Definition endswith_any (name : string) (suffixes : list string) : bool :=
  existsb (endswith name) suffixes.

(** A row of the [all_markets] data frame once the ticker columns are set:
    the index (the product id), the columns of the product record, and the
    two columns the code adds in lines 88-89. *)
Record Ticker : Type := {
  Index : string;
  columns : gmap string JSON;
  volume : float;
  price : float
}.

(** A row of the returned data frame, with the column of line 112. *)
Record Market : Type := {
  ticker : Ticker;
  USDVolume : float
}.

(** [all_markets.loc[label].price], for a frame indexed by distinct ids. *)
Definition loc_price (all_markets : list Ticker) (label : string) : result float :=
  match List.find (fun row => String.eqb (Index row) label) all_markets with
  | Some row => Ok (price row)
  | None => Error (KeyError label)
  end.

(** The order [sort_values("USDVolume", ascending=False)] arranges the rows
    in: a row may stand before another when the other's key is NaN
    (pandas puts NaN last), or when neither key is NaN and the other's key
    is not larger. *)
Definition usd_desc (a b : Market) : Prop :=
  orb (is_nan (USDVolume b))
      (negb (is_nan (USDVolume a)) && (USDVolume b <=? USDVolume a)%float) = true.

#[global] Instance usd_desc_dec a b : Decision (usd_desc a b).
Proof. unfold usd_desc. apply _. Defined.

(** [all_markets.sort_values("USDVolume", ascending=False)].  pandas fixes
    the result up to the order of rows with equal keys; a merge sort on
    [usd_desc] stands for it. *)
Definition sort_values_USDVolume_desc (all_markets : list Market) : list Market :=
  merge_sort usd_desc all_markets.

(** Python's [float(x)] on the two argument types the decoder cannot hand
    over as a float already. *)
Variable float_of_str : string -> result float.
Variable float_of_int : Z -> result float.

(** [pd.DataFrame.from_records(data=data, index="id")] followed by the
    renaming of line 66: the rows of the product table, in order. *)
Variable from_records : JSON -> result (list (string * gmap string JSON)).

(** [float(x)] *)
Definition py_float (x : JSON) : result float :=
  match x with
  | JFloat f => Ok f
  | JInt n => float_of_int n
  | JStr s => float_of_str s
  | JBool b => Ok (if b then 1 else 0)%float
  | _ => Error (TypeError "float() argument must be a string or a number")
  end.

(** [float(data.get(key, NaN))] *)
Definition float_field (data : JSON) (key : string) : result float :=
  obind (dict_get data key) (fun x =>
  match x with
  | Some x => py_float x
  | None => Ok NaN
  end).

(** The [while should_retry] loop of lines 73-87 for one product; [fuel]
    bounds the number of iterations unrolled. *)
Fixpoint ticker_loop (fuel : nat) (product_id : string) (retry_counter : nat)
  : M (float * float) :=
  match fuel with
  | O => unfinished
  | S fuel' =>
      let ticker_url := COINBASE_REST_URL +:+ "/products/" +:+ product_id +:+ "/ticker" in
      ticker_response <- client_get ticker_url ;;
      let retry_counter := S retry_counter in
      if (status ticker_response =? 200)%Z then
        let data := json ticker_response in
        v <- lift (float_field data "volume") ;;
        p <- lift (float_field data "price") ;;
        sleep (1 # 2) ;;
        ret (v, p)
      else if negb (status ticker_response =? 429)%Z || (retry_counter =? MAX_RETRIES)%nat then
        raise (IOError ("Error fetching ticker for " +:+ product_id +:+ " on Coinbase Pro."))
      else
        sleep (1 # 2) ;;
        ticker_loop fuel' product_id retry_counter
  end.

(** One product's ticker: the loop started at [retry_counter = 0].  It
    leaves after at most [MAX_RETRIES] iterations ([ticker_loop_fuel]). *)
Definition fetch_ticker (product_id : string) : M (float * float) :=
  ticker_loop MAX_RETRIES product_id 0.

(** [for product_id in ids], filling [volumes] and [prices]. *)
Fixpoint fetch_tickers (rows : list (string * gmap string JSON)) : M (list Ticker) :=
  match rows with
  | [] => ret []
  | (product_id, cols) :: rest =>
      vp <- fetch_ticker product_id ;;
      tickers <- fetch_tickers rest ;;
      ret ({| Index := product_id; columns := cols; volume := fst vp; price := snd vp |}
             :: tickers)
  end.

(** Lines 99-111: one row's USD volume. *)
Definition usd_volume_of (row : Ticker)
    (btc_usd_price eth_usd_price btc_eur_price btc_gbp_price : float) : M float :=
  let product_name := Index row in
  let quote_volume := volume row in
  let quote_price := price row in
  if endswith_any product_name ["USD"; "USDC"; "USDS"; "DAI"; "PAX"; "TUSD"; "USDT"] then
    ret (quote_volume * quote_price)%float
  else if endswith product_name "BTC" then
    ret (quote_volume * quote_price * btc_usd_price)%float
  else if endswith product_name "ETH" then
    ret (quote_volume * quote_price * eth_usd_price)%float
  else if endswith product_name "EUR" then
    ret (quote_volume * quote_price * (btc_usd_price / btc_eur_price))%float
  else if endswith product_name "GBP" then
    ret (quote_volume * quote_price * (btc_usd_price / btc_gbp_price))%float
  else
    emit (EvLogError ("Unable to convert volume to USD for market - " +:+ product_name +:+ ".")) ;;
    ret NaN.

(** [for row in all_markets.itertuples()], filling [usd_volume]. *)
Fixpoint usd_volumes (rows : list Ticker)
    (btc_usd_price eth_usd_price btc_eur_price btc_gbp_price : float) : M (list Market) :=
  match rows with
  | [] => ret []
  | row :: rest =>
      usd <- usd_volume_of row btc_usd_price eth_usd_price btc_eur_price btc_gbp_price ;;
      markets <- usd_volumes rest btc_usd_price eth_usd_price btc_eur_price btc_gbp_price ;;
      ret ({| ticker := row; USDVolume := usd |} :: markets)
  end.

(** Lines 90-113: from the frame with its ticker columns to the ranking. *)
Definition rank_by_usd_volume (all_markets : list Ticker) : M (list Market) :=
  btc_usd_price <- lift (loc_price all_markets "BTC-USD") ;;
  eth_usd_price <- lift (loc_price all_markets "ETH-USD") ;;
  btc_eur_price <- lift (loc_price all_markets "BTC-EUR") ;;
  btc_gbp_price <- lift (loc_price all_markets "BTC-GBP") ;;
  markets <- usd_volumes all_markets btc_usd_price eth_usd_price btc_eur_price btc_gbp_price ;;
  ret (sort_values_USDVolume_desc markets).

(** [get_active_exchange_markets()], the coroutine under its cache
    decorator. *)
Definition get_active_exchange_markets : M (list Market) :=
  products_response <- client_get (COINBASE_REST_URL +:+ "/products") ;;
  if negb (status products_response =? 200)%Z then
    raise (IOError "Error fetching active Coinbase Pro markets.")
  else
    let data := json products_response in
    rows <- lift (from_records data) ;;
    all_markets <- fetch_tickers rows ;;
    rank_by_usd_volume all_markets.

(** ** Trading pairs *)

(** [get_active_exchange_markets] as callers see it, behind
    [@async_ttl_cache(ttl=60 * 30, maxsize=1)] of [hummingbot.core.utils]:
    the cached ranking, or a run of the coroutine above. *)
Variable active_exchange_markets : M (list Market).

(** [get_trading_pairs()], for an instance built with [symbols]. *)
Definition get_trading_pairs (_symbols : option (list string)) : M (list string) :=
  match _symbols with
  | Some symbols => ret symbols
  | None =>
      active_markets <- active_exchange_markets ;;
      ret (map (fun m => Index (ticker m)) active_markets)
  end.

(** ** Tracking entry builder *)

(** The order book classes of [hummingbot.market.coinbase_pro] and
    [hummingbot.core.data_type]: their types, fresh instances and the
    methods the builder calls, each of which may raise. *)
Variable snapshot_message_from_exchange :
  JSON -> Q -> gmap string string -> result OrderBookMessage.
Variables OrderBook ActiveOrderTracker OrderBookRows : Type.
Variable CoinbaseProOrderBook : OrderBook.
Variable CoinbaseProActiveOrderTracker : ActiveOrderTracker.
Variable convert_snapshot_message_to_order_book_row :
  ActiveOrderTracker -> OrderBookMessage ->
  result (ActiveOrderTracker * (OrderBookRows * OrderBookRows)).
Variable update_id : OrderBookMessage -> result Z.
Variable apply_snapshot :
  OrderBook -> OrderBookRows -> OrderBookRows -> Z -> result OrderBook.

(** [CoinbaseProOrderBookTrackerEntry(symbol, timestamp, order_book,
    active_order_tracker)] *)
Record CoinbaseProOrderBookTrackerEntry : Type := {
  symbol : string;
  timestamp : Q;
  order_book : OrderBook;
  active_order_tracker : ActiveOrderTracker
}.

(** The metadata the builder tags a snapshot message with (line 155). *)
Definition tracking_metadata (trading_pair : string) : gmap string string :=
  {[ "symbol" := trading_pair ]}.

(** The metadata the periodic refresher tags a snapshot message with
    (line 246). *)
Definition refresher_metadata (trading_pair : string) : gmap string string :=
  {[ "product_id" := trading_pair ]}.

(** Lines 152-156. *)
Definition tracking_snapshot_msg (trading_pair : string) (snapshot : JSON)
    (snapshot_timestamp : Q) : result OrderBookMessage :=
  snapshot_message_from_exchange snapshot snapshot_timestamp (tracking_metadata trading_pair).

(** Lines 243-247. *)
Definition refresher_snapshot_msg (trading_pair : string) (snapshot : JSON)
    (snapshot_timestamp : Q) : result OrderBookMessage :=
  snapshot_message_from_exchange snapshot snapshot_timestamp (refresher_metadata trading_pair).

(** Lines 152-167, which await nothing: from a snapshot and its timestamp
    to the tracking entry. *)
Definition build_entry (trading_pair : string) (snapshot : JSON) (snapshot_timestamp : Q)
  : result CoinbaseProOrderBookTrackerEntry :=
  obind (tracking_snapshot_msg trading_pair snapshot snapshot_timestamp) (fun snapshot_msg =>
  let order_book := CoinbaseProOrderBook in
  let active_order_tracker := CoinbaseProActiveOrderTracker in
  obind (convert_snapshot_message_to_order_book_row active_order_tracker snapshot_msg)
    (fun '(active_order_tracker, (bids, asks)) =>
  obind (update_id snapshot_msg) (fun uid =>
  obind (apply_snapshot order_book bids asks uid) (fun order_book =>
  Ok {| symbol := trading_pair;
            timestamp := snapshot_timestamp;
            order_book := order_book;
            active_order_tracker := active_order_tracker |})))).

(** The [for index, trading_pair in enumerate(trading_pairs)] loop of
    lines 148-172, [retval] being the dictionary filled so far. *)
Fixpoint tracking_loop (index number_of_pairs : nat) (trading_pairs : list string)
    (retval : gmap string CoinbaseProOrderBookTrackerEntry)
  : M (gmap string CoinbaseProOrderBookTrackerEntry) :=
  match trading_pairs with
  | [] => ret retval
  | trading_pair :: rest =>
      retval <- try_except_Exception
        (snapshot <- get_snapshot trading_pair ;;
         snapshot_timestamp <- time ;;
         entry <- lift (build_entry trading_pair snapshot snapshot_timestamp) ;;
         let retval := <[ trading_pair := entry ]> retval in
         emit (EvLogInfo ("Initialized order book for " +:+ trading_pair +:+ ". "
                          +:+ pretty (index + 1)%nat +:+ "/" +:+ pretty number_of_pairs
                          +:+ " completed.")) ;;
         sleep (6 # 10) ;;
         ret retval)
        (emit (EvLogError ("Error getting snapshot for " +:+ trading_pair +:+ ". ")) ;;
         ret retval) ;;
      tracking_loop (S index) number_of_pairs rest retval
  end.

(** [get_tracking_pairs()] *)
Definition get_tracking_pairs (_symbols : option (list string))
  : M (gmap string CoinbaseProOrderBookTrackerEntry) :=
  trading_pairs <- get_trading_pairs _symbols ;;
  let number_of_pairs := length trading_pairs in
  tracking_loop 0 number_of_pairs trading_pairs ∅.

(** ** Periodic snapshot refresher *)

(** The [for trading_pair in trading_pairs] loop of lines 239-256. *)
Fixpoint snapshot_pass (trading_pairs : list string) : M unit :=
  match trading_pairs with
  | [] => ret tt
  | trading_pair :: rest =>
      try_except_Exception
        (snapshot <- get_snapshot trading_pair ;;
         snapshot_timestamp <- time ;;
         snapshot_msg <- lift (refresher_snapshot_msg trading_pair snapshot snapshot_timestamp) ;;
         put_nowait snapshot_msg ;;
         emit (EvLogDebug ("Saved order book snapshot for " +:+ trading_pair)) ;;
         sleep 5)
        (emit (EvLogError "Unexpected error.") ;;
         sleep 5) ;;
      snapshot_pass rest
  end.

(** [listen_for_order_book_snapshots(ev_loop, output)], its [while True]
    unrolled [passes] times. *)
Fixpoint listen_for_order_book_snapshots (passes : nat) (_symbols : option (list string))
  : M unit :=
  match passes with
  | O => unfinished
  | S passes' =>
      try_except_Exception
        (trading_pairs <- get_trading_pairs _symbols ;;
         snapshot_pass trading_pairs ;;
         t <- time ;;
         let this_hour := inject_Z (3600 * Qfloor (t / 3600)) in
         let next_hour := (this_hour + 3600)%Q in
         let delta := (next_hour - t)%Q in
         sleep delta)
        (emit (EvLogError "Unexpected error.") ;;
         sleep 5) ;;
      listen_for_order_book_snapshots passes' _symbols
  end.

(** ** Streaming diff listener *)

(** [try: m except ...], [handler e] being the clause that matches [e], if
    one does. *)
Definition try_except {A} (m : M A) (handler : exn -> option (M A)) : M A :=
  fun w =>
    match m w with
    | (Raise e, w') =>
        match handler e with
        | Some h => h w'
        | None => (Raise e, w')
        end
    | r => r
    end.

(** [await aw]: suspended until [aw] completes. *)
Definition await {A} (aw : awaited A) : M A :=
  match aw with
  | After latency a => elapse latency ;; ret a
  | FailsAfter latency e => elapse latency ;; raise e
  | Never => unfinished
  end.

(** [await asyncio.wait_for(aw, timeout)]: [asyncio.TimeoutError] when
    [aw] takes longer than [timeout]. *)
Definition wait_for {A} (aw : awaited A) (timeout : Q) : M A :=
  match aw with
  | After latency a =>
      if Qle_bool latency timeout then elapse latency ;; ret a
      else elapse timeout ;; raise TimeoutError
  | FailsAfter latency e =>
      if Qle_bool latency timeout then elapse latency ;; raise e
      else elapse timeout ;; raise TimeoutError
  | Never => elapse timeout ;; raise TimeoutError
  end.

(** [await ws.close()] *)
Definition ws_close : M unit := emit EvClose.

(** One turn of the [while True] of [_inner_messages] (lines 180-188). *)
Definition inner_turn (it : iteration) : M generator_step :=
  try_except
    (emit (EvRecv MESSAGE_TIMEOUT) ;;
     msg <- wait_for (recv it) MESSAGE_TIMEOUT ;;
     ret (Yield msg))
    (fun e =>
       match e with
       | TimeoutError => Some
           (* the inner [except asyncio.TimeoutError: raise] re-raises as is *)
           (emit EvPing ;;
            pong_waiter <- await (ping it) ;;
            emit (EvPong PING_TIMEOUT) ;;
            wait_for pong_waiter PING_TIMEOUT ;;
            ret Resume)
       | _ => None
       end).

(** Resuming the generator [_inner_messages(ws)]: the turn above under the
    handlers and the [finally] that enclose the loop (lines 189-195). *)
Definition _inner_messages (it : iteration) : M generator_step :=
  try_except (inner_turn it)
    (fun e =>
       match e with
       | TimeoutError => Some
           (emit (EvLogWarning "WebSocket ping timed out. Going to reconnect...") ;;
            ws_close ;;
            ret Stop)
       | ConnectionClosed => Some (ws_close ;; ret Stop)
       | _ => Some (ws_close ;; raise e)
       end).

(** The diff-message constructor of the order book class. *)
Variable diff_message_from_exchange : JSON -> result OrderBookMessage.

(** The body of the [async for] (lines 210-226) for one frame. *)
Definition on_message (raw_msg : frame) : M unit :=
  msg <- lift (loads raw_msg) ;;
  match msg with
  | JDict fields =>
      let msg_type := default JNull (fields !! "type") in
      if is_None msg_type then
        raise (ValueError "Coinbase Pro Websocket message does not contain a type")
      else if str_eq msg_type "error" then
        match fields !! "message" with
        | Some _ => raise (ValueError "Coinbase Pro Websocket received error message")
        | None => raise (KeyError "message")
        end
      else if str_in msg_type ["open"; "match"; "change"; "done"] then
        if str_eq msg_type "done" && negb (dict_has fields "price") then
          ret tt
        else
          order_book_message <- lift (diff_message_from_exchange msg) ;;
          put_nowait order_book_message
      else if str_in msg_type ["received"; "activate"; "subscriptions"] then
        ret tt
      else
        raise (ValueError "Unrecognized Coinbase Pro Websocket message received")
  | _ =>
      (* [msg.get]: only a dictionary has it *)
      raise (OtherException "AttributeError")
  end.

(** The [async for raw_msg in self._inner_messages(ws)] loop, over the
    scripted turns of the generator. *)
Fixpoint message_loop (turns : list iteration) : M unit :=
  match turns with
  | [] => unfinished
  | it :: rest =>
      step <- _inner_messages it ;;
      match step with
      | Yield raw_msg => on_message raw_msg ;; message_loop rest
      | Resume => message_loop rest
      | Stop => ret tt
      end
  end.

(** Leaving [async with websockets.connect(...) as ws]: the connection is
    closed however the block ends. *)
Definition async_with_ws {A} (body : M A) : M A :=
  fun w =>
    match body w with
    | (Return a, w') => (ws_close ;; ret a) w'
    | (Raise e, w') => (ws_close ;; raise e) w'
    | (Unfinished, w') => (Unfinished, w')
    end.

(** Lines 203-208: the subscription to the full channel. *)
Definition subscribe (trading_pairs : list string) (c : cycle) : M unit :=
  let subscribe_request :=
    JDict {[ "type" := JStr "subscribe";
             "product_ids" := JList (map JStr trading_pairs);
             "channels" := JList [JStr "full"] ]} in
  emit (EvSend subscribe_request) ;;
  await (send c).

(** The [try] block of lines 200-226: one connection session. *)
Definition session (_symbols : option (list string)) (c : cycle) : M unit :=
  trading_pairs <- get_trading_pairs _symbols ;;
  emit (EvConnect COINBASE_WS_FEED) ;;
  await (connect c) ;;
  async_with_ws
    (subscribe trading_pairs c ;;
     message_loop (turns c)).

(** Lines 229-232. *)
Definition cooldown (c : cycle) : M unit :=
  emit (EvLogError
          "Unexpected error with Coinbase Pro WebSocket connection. Retrying after 30 seconds...") ;;
  emit (EvSleep 30) ;;
  if cancelled_in_cooldown c then raise CancelledError else elapse 30.

(** One pass of the [while True] of [listen_for_order_book_diffs]. *)
Definition listen_cycle (_symbols : option (list string)) (c : cycle) : M unit :=
  try_except (session _symbols c)
    (fun e =>
       match e with
       | CancelledError => Some (raise e)
       | _ => Some (cooldown c)
       end).

(** [listen_for_order_book_diffs(ev_loop, output)] against the scripted
    cycles. *)
Fixpoint listen_for_order_book_diffs (_symbols : option (list string)) (cycles : list cycle)
  : M unit :=
  match cycles with
  | [] => unfinished
  | c :: rest =>
      listen_cycle _symbols c ;;
      listen_for_order_book_diffs _symbols rest
  end.

End DataSource.

Arguments symbol {OrderBook ActiveOrderTracker} _.
Arguments timestamp {OrderBook ActiveOrderTracker} _.
Arguments order_book {OrderBook ActiveOrderTracker} _.
Arguments active_order_tracker {OrderBook ActiveOrderTracker} _.

(** * The vocabulary of the properties *)

(** ** Requests, tickers and the ranking *)

(** The URL [get_snapshot] requests. *)
Definition snapshot_url (trading_pair : string) : string :=
  COINBASE_REST_URL +:+ "/products/" +:+ trading_pair +:+ "/book?level=3".

(** The URL of a product's ticker. *)
Definition ticker_url (product_id : string) : string :=
  COINBASE_REST_URL +:+ "/products/" +:+ product_id +:+ "/ticker".


Section TickerVocabulary.
Variable float_of_str : string -> result float.
Variable float_of_int : Z -> result float.

(** Lines 80-83: the volume and price read off a ticker body. *)
Definition ticker_data (data : JSON) : result (float * float) :=
  obind (float_field float_of_str float_of_int data "volume") (fun v =>
  obind (float_field float_of_str float_of_int data "price") (fun p =>
  Ok (v, p))).

End TickerVocabulary.

(** The quote suffixes lines 99-108 know a conversion for. *)
Definition known_suffixes : list string :=
  ["USD"; "USDC"; "USDS"; "DAI"; "PAX"; "TUSD"; "USDT"; "BTC"; "ETH"; "EUR"; "GBP"].

(** A product id whose suffix matches no conversion path. *)
Definition unconvertible (product_name : string) : bool :=
  negb (endswith_any product_name known_suffixes).

(** The error line 111 logs for it. *)
Definition unconvertible_log (product_name : string) : event :=
  EvLogError ("Unable to convert volume to USD for market - " +:+ product_name +:+ ".").

(** The four reference instruments of lines 90-93. *)
Definition reference_pairs : list string := ["BTC-USD"; "ETH-USD"; "BTC-EUR"; "BTC-GBP"].

(** A world where nothing has happened yet and the exchange holds
    [answers]. *)
Definition fresh_world (OBM : Type) (answers : list reply) : World OBM :=
  Build_World answers 0 [] [].

(** ** The tracking batch *)

(** The error line 172 logs. *)
Definition snapshot_error_log (trading_pair : string) : event :=
  EvLogError ("Error getting snapshot for " +:+ trading_pair +:+ ". ").

Section TrackingVocabulary.
Context {OrderBookMessage : Type}.
Variable snapshot_message_from_exchange :
  JSON -> Q -> gmap string string -> result OrderBookMessage.
Variables OrderBook ActiveOrderTracker OrderBookRows : Type.
Variable CoinbaseProOrderBook : OrderBook.
Variable CoinbaseProActiveOrderTracker : ActiveOrderTracker.
Variable convert_snapshot_message_to_order_book_row :
  ActiveOrderTracker -> OrderBookMessage ->
  result (ActiveOrderTracker * (OrderBookRows * OrderBookRows)).
Variable update_id : OrderBookMessage -> result Z.
Variable apply_snapshot :
  OrderBook -> OrderBookRows -> OrderBookRows -> Z -> result OrderBook.

Local Abbreviation Entry := (CoinbaseProOrderBookTrackerEntry OrderBook ActiveOrderTracker).
Local Abbreviation build_entry' :=
  (build_entry snapshot_message_from_exchange OrderBook ActiveOrderTracker OrderBookRows
     CoinbaseProOrderBook CoinbaseProActiveOrderTracker
     convert_snapshot_message_to_order_book_row update_id apply_snapshot).

(** What processing one instrument comes to, given the exchange's answer
    to its snapshot request and the time of the answer. *)
Definition attempt (trading_pair : string) (answer : reply) (t : Q) : result Entry :=
  match answer with
  | Reply response =>
      if (status response =? 200)%Z then build_entry' trading_pair (json response) t
      else Error (IOError ("Error fetching Coinbase Pro market snapshot for " +:+ trading_pair))
  | Fault e => Error e
  end.

(** The instruments of a batch in order, each with what its processing
    comes to; a success is followed by the 0.6 s pause. *)
Fixpoint attempts (trading_pairs : list string) (answers : list reply) (t : Q)
  : list (string * result Entry) :=
  match trading_pairs, answers with
  | trading_pair :: rest, answer :: answers' =>
      let r := attempt trading_pair answer t in
      (trading_pair, r)
        :: attempts rest answers' (match r with Ok _ => (t + (6 # 10))%Q | Error _ => t end)
  | _, _ => []
  end.

(** The instruments whose processing succeeded. *)
Definition succeeded (outcomes : list (string * result Entry)) : list string :=
  omap (fun '(trading_pair, r) =>
          match r with Ok _ => Some trading_pair | Error _ => None end) outcomes.

(** The instruments whose processing failed. *)
Definition failed (outcomes : list (string * result Entry)) : list string :=
  omap (fun '(trading_pair, r) =>
          match r with Ok _ => None | Error _ => Some trading_pair end) outcomes.

(** No cancellation reaches the batch. *)
Definition uncancelled (outcomes : list (string * result Entry)) : Prop :=
  Forall (fun '(_, r) => r <> Error CancelledError) outcomes.

End TrackingVocabulary.

Arguments succeeded {OrderBook ActiveOrderTracker} outcomes.
Arguments failed {OrderBook ActiveOrderTracker} outcomes.
Arguments uncancelled {OrderBook ActiveOrderTracker} outcomes.

(** ** Frames, waits and the worlds of a session *)

(** A frame that spells the JSON object [fields]. *)
Definition object_frame (fields : gmap string JSON) : frame := Text (JDict fields).

(** The frame's kind: its [type] field is the string [kind]. *)
Definition has_kind (fields : gmap string JSON) (kind : string) : Prop :=
  fields !! "type" = Some (JStr kind).

(** The kinds the listener names (lines 214-222). *)
Definition known_kinds : list string :=
  ["error"; "open"; "match"; "change"; "done"; "received"; "activate"; "subscriptions"].

(** The world with [msg] put on the output queue. *)
Definition enqueue {OBM : Type} (msg : OBM) (w : World OBM) : World OBM :=
  Build_World (replies w) (now w) (trace w) (output w ++ [msg]).

(** The world once a frame has arrived, [latency] seconds into a bounded
    wait for it. *)
Definition received {OBM : Type} (latency : Q) (w : World OBM) : World OBM :=
  Build_World (replies w) (now w + latency)%Q (trace w ++ [EvRecv MESSAGE_TIMEOUT]) (output w).

(** A [type] value that is none of the kinds the listener names. *)
Definition unrecognized (msg_type : JSON) : Prop :=
  is_None msg_type = false /\ str_in msg_type known_kinds = false.

(** A wait that takes longer than [timeout]. *)
Definition exceeds {A : Type} (aw : awaited A) (timeout : Q) : Prop :=
  match aw with
  | After latency _ | FailsAfter latency _ => Qle_bool latency timeout = false
  | Never => True
  end.

(** The warning of line 190. *)
Definition ping_timeout_warning : event :=
  EvLogWarning "WebSocket ping timed out. Going to reconnect...".

(** The error of lines 230-231. *)
Definition reconnect_error : event :=
  EvLogError
    "Unexpected error with Coinbase Pro WebSocket connection. Retrying after 30 seconds...".

(** The request of lines 203-207. *)
Definition subscribe_request (trading_pairs : list string) : JSON :=
  JDict {[ "type" := JStr "subscribe";
           "product_ids" := JList (map JStr trading_pairs);
           "channels" := JList [JStr "full"] ]}.

(** The world once the connection is open and the subscription sent. *)
Definition subscribed {OBM : Type} (trading_pairs : list string) (lc ls : Q) (w : World OBM)
  : World OBM :=
  Build_World (replies w) (now w + lc + ls)%Q
    ((trace w ++ [EvConnect COINBASE_WS_FEED]) ++ [EvSend (subscribe_request trading_pairs)])
    (output w).

(** The world once the connection is closed. *)
Definition closed {OBM : Type} (w : World OBM) : World OBM :=
  Build_World (replies w) (now w) (trace w ++ [EvClose]) (output w).

(** The world once the cooldown of lines 229-232 is over. *)
Definition cooled {OBM : Type} (w : World OBM) : World OBM :=
  Build_World (replies w) (now w + 30)%Q
    ((trace w ++ [reconnect_error]) ++ [EvSleep 30]) (output w).

(** ** The market directory end to end *)

(** The URL of the product list. *)
Definition products_url : string := COINBASE_REST_URL +:+ "/products".

(** The row of the product table a ticker row grew from. *)
Definition product_row (t : Ticker) : string * gmap string JSON := (Index t, columns t).

Section DirectoryVocabulary.
Variable float_of_str : string -> result float.
Variable float_of_int : Z -> result float.

(** The exchange answers the ticker request of a product with a 200 whose
    body reads as the row's volume and price. *)
Definition ticker_answered (t : Ticker) (ok : ClientResponse) : Prop :=
  status ok = 200%Z
  /\ ticker_data float_of_str float_of_int (json ok) = Ok (volume t, price t).

End DirectoryVocabulary.

(** ** The refresher's pass *)

(** The error lines 255 and 264 log. *)
Definition unexpected_error_log : event := EvLogError "Unexpected error.".

Section RefresherVocabulary.
Context {OrderBookMessage : Type}.
Variable snapshot_message_from_exchange :
  JSON -> Q -> gmap string string -> result OrderBookMessage.

(** What refreshing one instrument comes to, given the exchange's answer
    to its snapshot request and the time of the answer. *)
Definition refresh (trading_pair : string) (answer : reply) (t : Q)
  : result OrderBookMessage :=
  match answer with
  | Reply response =>
      if (status response =? 200)%Z then
        refresher_snapshot_msg snapshot_message_from_exchange trading_pair (json response) t
      else Error (IOError ("Error fetching Coinbase Pro market snapshot for " +:+ trading_pair))
  | Fault e => Error e
  end.

(** The instruments of a pass in order, each with what its refresh comes
    to; the 5 s pause follows a success and a failure alike. *)
Fixpoint refreshes (trading_pairs : list string) (answers : list reply) (t : Q)
  : list (string * result OrderBookMessage) :=
  match trading_pairs, answers with
  | trading_pair :: rest, answer :: answers' =>
      (trading_pair, refresh trading_pair answer t) :: refreshes rest answers' (t + 5)%Q
  | _, _ => []
  end.

(** The snapshot messages of a pass, in the order of the instruments. *)
Definition snapshot_messages (outcomes : list (string * result OrderBookMessage))
  : list OrderBookMessage :=
  omap (fun '(_, r) => match r with Ok msg => Some msg | Error _ => None end) outcomes.

(** No cancellation reaches the pass. *)
Definition undisturbed (outcomes : list (string * result OrderBookMessage)) : Prop :=
  Forall (fun '(_, r) => r <> Error CancelledError) outcomes.

End RefresherVocabulary.

(** The pause that ends at the next full hour after [t] (lines 257-260). *)
Definition until_next_hour (t : Q) : Q :=
  (inject_Z (3600 * Qfloor (t / 3600)) + 3600 - t)%Q.

(** The world once the task has slept for [delay] seconds. *)
Definition slept {OBM : Type} (delay : Q) (w : World OBM) : World OBM :=
  Build_World (replies w) (now w + delay)%Q (trace w ++ [EvSleep delay]) (output w).

(** ** The output queue and the session's turns *)

(** The coroutine only ever appends to the output queue: whatever was
    queued when it started is still there, in place, when it stops. *)
Definition output_grows {OBM A : Type} (m : coroutine OBM A) : Prop :=
  forall w, output w `prefix_of` output (snd (m w)).

Section DeliveryVocabulary.
Context {OrderBookMessage : Type}.
Variable diff_message_from_exchange : JSON -> result OrderBookMessage.

(** A turn in which a diff frame arrives within the message timeout and
    reads as [msg]. *)
Definition delivers (it : iteration) (msg : OrderBookMessage) : Prop :=
  exists latency fields kind,
    recv it = After latency (object_frame fields)
    /\ Qle_bool latency MESSAGE_TIMEOUT = true
    /\ has_kind fields kind
    /\ (kind = "open" \/ kind = "match" \/ kind = "change"
        \/ (kind = "done" /\ is_Some (fields !! "price")))
    /\ diff_message_from_exchange (JDict fields) = Ok msg.

End DeliveryVocabulary.

(** The time an awaited call takes to come back, with its result or with
    an exception; none when it never comes back. *)
Definition send_time {A : Type} (aw : awaited A) : option Q :=
  match aw with
  | After latency _ | FailsAfter latency _ => Some latency
  | Never => None
  end.

(** * Sample data *)

(** A table of the four reference instruments and one instrument quoted in
    a currency without a conversion path. *)
Definition sample_markets : list Ticker :=
  [ {| Index := "BTC-USD"; columns := ∅; volume := 50; price := 9000 |};
    {| Index := "ETH-USD"; columns := ∅; volume := 100; price := 200 |};
    {| Index := "XRP-JPY"; columns := ∅; volume := 7; price := 30 |};
    {| Index := "BTC-EUR"; columns := ∅; volume := 10; price := 8000 |};
    {| Index := "BTC-GBP"; columns := ∅; volume := 5; price := 7000 |} ].

(** Stand-ins for the order book classes: a message is the JSON it was
    built from, tagged with its metadata; an order book is the update id it
    was last set to. *)
Definition sample_diff_message (msg : JSON) : result JSON := Ok msg.

Definition sample_snapshot_message (snapshot : JSON) (snapshot_timestamp : Q)
    (metadata : gmap string string) : result JSON :=
  match snapshot with
  | JDict fields =>
      if dict_has fields "sequence" then Ok (JDict ((JStr <$> metadata) ∪ fields))
      else Error (KeyError "sequence")
  | _ => Error (TypeError "snapshot is not a dictionary")
  end.

Definition sample_convert (tracker : unit) (snapshot_msg : JSON)
  : result (unit * (JSON * JSON)) :=
  match dict_get snapshot_msg "bids", dict_get snapshot_msg "asks" with
  | Ok (Some bids), Ok (Some asks) => Ok (tracker, (bids, asks))
  | _, _ => Error (KeyError "bids")
  end.

Definition sample_update_id (snapshot_msg : JSON) : result Z :=
  match dict_get snapshot_msg "sequence" with
  | Ok (Some (JInt n)) => Ok n
  | _ => Error (KeyError "sequence")
  end.

Definition sample_apply_snapshot (book : Z) (bids asks : JSON) (uid : Z) : result Z := Ok uid.

(** A product list decoder and number parsers for the examples: ids are
    strings, numbers arrive as JSON numbers. *)
Definition sample_from_records (data : JSON) : result (list (string * gmap string JSON)) :=
  match data with
  | JList items =>
      foldr (fun item acc =>
               obind acc (fun rows =>
               match item with
               | JDict fields =>
                   match fields !! "id" with
                   | Some (JStr id) => Ok ((id, delete "id" fields) :: rows)
                   | _ => Error (KeyError "id")
                   end
               | _ => Error (TypeError "record is not a dictionary")
               end)) (Ok []) items
  | _ => Error (TypeError "data is not a list")
  end.

Definition sample_float_of_str (s : string) : result float :=
  Error (ValueError "could not convert string to float").

Definition sample_float_of_int (n : Z) : result float :=
  Error (TypeError "integers are not used in the examples").

(** Discovery with an empty cache: the coroutine itself. *)
Definition sample_discovery : coroutine JSON (list Market) :=
  get_active_exchange_markets sample_float_of_str sample_float_of_int sample_from_records.

(** Answers of the exchange. *)
Definition snapshot_ok (sequence : Z) : reply :=
  Reply {| status := 200;
           json := JDict {[ "sequence" := JInt sequence;
                            "bids" := JList []; "asks" := JList [] ]} |}.

Definition status_only (code : Z) : reply :=
  Reply {| status := code; json := JNull |}.

Definition ticker_ok (v p : float) : reply :=
  Reply {| status := 200; json := JDict {[ "volume" := JFloat v; "price" := JFloat p ]} |}.

Definition products_ok (ids : list string) : reply :=
  Reply {| status := 200;
           json := JList (map (fun id => JDict {[ "id" := JStr id ]}) ids) |}.

(** Frames. *)
Definition frame_of_kind (kind : string) : frame :=
  object_frame {[ "type" := JStr kind ]}.

Definition priced_frame (kind : string) : frame :=
  object_frame {[ "type" := JStr kind; "price" := JStr "9000.5" ]}.

(** A ping that is answered at once. *)
Definition answered : awaited (awaited unit) := After 0 (After 0 tt).

(** A turn in which nothing arrives for 40 s and the pong takes 3 s. *)
Definition slow_turn : iteration :=
  {| recv := After 40 (frame_of_kind "open"); ping := After 0 (After 3 tt) |}.

(** A turn in which nothing arrives, and no pong either. *)
Definition dead_turn : iteration :=
  {| recv := Never; ping := After 0 Never |}.

(** The builder's collaborators in the examples. *)
Definition sample_tracking_pairs (trading_pairs : list string)
  : coroutine JSON (gmap string (CoinbaseProOrderBookTrackerEntry Z unit)) :=
  get_tracking_pairs sample_discovery sample_snapshot_message Z unit JSON 0%Z tt
    sample_convert sample_update_id sample_apply_snapshot (Some trading_pairs).

(** Five instruments: two snapshots arrive whole, one request is refused,
    one snapshot lacks its sequence number, one request breaks. *)
Definition five_pairs : list string := ["BTC-USD"; "ETH-USD"; "LTC-USD"; "XRP-USD"; "BCH-USD"].

Definition five_answers : list reply :=
  [ snapshot_ok 11; status_only 500;
    Reply {| status := 200; json := JDict {[ "bids" := JList []; "asks" := JList [] ]} |};
    Fault (OtherException "ClientConnectorError"); snapshot_ok 12 ].

(** A pass in which the peer closes the connection while the subscription
    is being sent. *)
Definition refused_cycle : cycle :=
  {| connect := After 0 tt;
     send := FailsAfter 0 ConnectionClosed;
     turns := [];
     cancelled_in_cooldown := false |}.

(** A pass with one [match] frame, a second after the subscription. *)
Definition healthy_cycle : cycle :=
  {| connect := After 0 tt;
     send := After 0 tt;
     turns := [ {| recv := After 1 (priced_frame "match"); ping := answered |} ];
     cancelled_in_cooldown := false |}.

(** What the exchange answers in the next example: the product list is
    refused once, then served with the tickers of the four products. *)
Definition discovery_answers : list reply :=
  [ status_only 500;
    products_ok reference_pairs;
    ticker_ok 50 9000; ticker_ok 100 200; ticker_ok 10 8000; ticker_ok 5 7000 ].


Definition sample_ticker (v p : float) : ClientResponse :=
  {| status := 200; json := JDict {[ "volume" := JFloat v; "price" := JFloat p ]} |}.

Definition sample_products (ids : list string) : ClientResponse :=
  {| status := 200; json := JList (map (fun id => JDict {[ "id" := JStr id ]}) ids) |}.

(** The table of the four reference instruments, as the tickers below fill
    it. *)
Definition reference_tickers : list Ticker :=
  [ {| Index := "BTC-USD"; columns := ∅; volume := 50; price := 9000 |};
    {| Index := "ETH-USD"; columns := ∅; volume := 100; price := 200 |};
    {| Index := "BTC-EUR"; columns := ∅; volume := 10; price := 8000 |};
    {| Index := "BTC-GBP"; columns := ∅; volume := 5; price := 7000 |} ].

Definition reference_ticker_responses : list ClientResponse :=
  [ sample_ticker 50 9000; sample_ticker 100 200; sample_ticker 10 8000; sample_ticker 5 7000 ].

(** Two turns in which a diff frame arrives in time. *)
Definition two_frames : list iteration :=
  [ {| recv := After 1 (priced_frame "match"); ping := answered |};
    {| recv := After 2 (frame_of_kind "open"); ping := answered |} ].

(** The refresher's collaborators in the examples. *)
Definition sample_refresher (passes : nat) (trading_pairs : list string)
  : coroutine JSON unit :=
  listen_for_order_book_snapshots sample_discovery sample_snapshot_message passes
    (Some trading_pairs).

(** Collaborators that make the metadata visible: a snapshot message is
    the metadata it was built with, and the order tracker keeps the message
    it converted. *)
Definition metadata_probe (snapshot : JSON) (snapshot_timestamp : Q)
    (metadata : gmap string string) : result (gmap string string) :=
  Ok metadata.

Definition probe_convert (tracker : gmap string string) (snapshot_msg : gmap string string)
  : result (gmap string string * (unit * unit)) :=
  Ok (snapshot_msg, (tt, tt)).

Definition probe_update_id (snapshot_msg : gmap string string) : result Z := Ok 0%Z.

Definition probe_apply_snapshot (book : unit) (bids asks : unit) (uid : Z) : result unit :=
  Ok book.

Definition probe_tracking_pairs
    (discovery : coroutine (gmap string string) (list Market)) (trading_pairs : list string)
  : coroutine (gmap string string)
      (gmap string (CoinbaseProOrderBookTrackerEntry unit (gmap string string))) :=
  get_tracking_pairs discovery metadata_probe unit (gmap string string) unit tt ∅
    probe_convert probe_update_id probe_apply_snapshot (Some trading_pairs).

(** * Proof tactics *)

(** Runs the monad's plumbing, and nothing else, in the goal. *)
Ltac run_coroutine :=
  cbv beta iota zeta
      delta [bind ret raise lift unfinished try_except_Exception emit elapse sleep time
             put_nowait client_get get_snapshot outcome_of is_Exception tl fst snd];
  cbn [replies now trace output negb].

(** Runs the plumbing of the websocket generator as well. *)
Ltac run_listener :=
  cbv beta iota zeta
      delta [bind ret raise lift unfinished try_except try_except_Exception emit elapse
             sleep time put_nowait outcome_of await wait_for ws_close inner_turn
             _inner_messages async_with_ws];
  cbn [replies now trace output recv ping negb].

(** * Properties *)

(** ** Snapshot fetcher *)

Section SnapshotFetcherFacts.
Context {OrderBookMessage : Type}.
Implicit Types w : World OrderBookMessage.


End SnapshotFetcherFacts.

(** ** Market directory: the ticker retry loop *)

Section TickerFacts.
Context {OrderBookMessage : Type}.
Variable float_of_str : string -> result float.
Variable float_of_int : Z -> result float.
Implicit Types w : World OrderBookMessage.

Local Abbreviation ticker_loop' := (ticker_loop (OrderBookMessage := OrderBookMessage)
                                      float_of_str float_of_int).
Local Abbreviation fetch_ticker' := (fetch_ticker (OrderBookMessage := OrderBookMessage)
                                       float_of_str float_of_int).
Local Abbreviation ticker_data' := (ticker_data float_of_str float_of_int).



(** The loop started below the ceiling leaves within the attempts that
    remain: fuel beyond them changes nothing. *)
Lemma ticker_loop_fuel product_id :
  forall n fuel retry_counter w,
    (0 < n)%nat ->
    (retry_counter + n = MAX_RETRIES)%nat ->
    (n <= fuel)%nat ->
    ticker_loop' fuel product_id retry_counter w = ticker_loop' n product_id retry_counter w.
Proof.
  induction n as [|n IH]; intros fuel c w Hn Hc Hfuel; [lia|].
  destruct fuel as [|fuel]; [lia|].
  cbn [ticker_loop]. unfold bind.
  destruct (client_get _ w) as [[r| |] w1]; try reflexivity.
  destruct (status r =? 200)%Z; [reflexivity|].
  destruct (Nat.eqb_spec (S c) MAX_RETRIES) as [Heq|Hne].
  - rewrite orb_true_r. reflexivity.
  - destruct (negb (status r =? 429)%Z); [reflexivity|]. cbn [orb].
    destruct (sleep _ w1) as [[[]| |] w2]; try reflexivity.
    apply IH; lia.
Qed.

Lemma requests_app t1 t2 : requests (t1 ++ t2) = requests t1 ++ requests t2.
Proof. unfold requests. apply omap_app. Qed.



End TickerFacts.

(** ** Market directory: the USD volume ranking *)

(** *** The order of binary64 numbers that are not NaN *)

Lemma SFcompare_antisym x y c :
  SFcompare x y = Some c -> SFcompare y x = Some (CompOpp c).
Proof.
  destruct x as [sx|sx| |sx mx ex], y as [sy|sy| |sy my ey]; cbn;
    try discriminate; intros [= <-]; f_equal;
    repeat match goal with s : bool |- _ => destruct s end; try reflexivity.
  all: change (PosDef.Pos.compare_cont Eq) with Pos.compare.
  all: rewrite (Z.compare_antisym ex ey), (Pos.compare_antisym mx my).
  all: destruct (ex ?= ey)%Z, (mx ?= my)%positive; reflexivity.
Qed.

Lemma SFcompare_Some x y :
  x <> S754_nan -> y <> S754_nan -> exists c, SFcompare x y = Some c.
Proof. destruct x, y; cbn; intros; try congruence; eauto. Qed.

Lemma SFleb_trans x y z :
  SFleb x y = true -> SFleb y z = true -> SFleb x z = true.
Proof.
  unfold SFleb.
  destruct x as [sx|sx| |sx mx ex], y as [sy|sy| |sy my ey], z as [sz|sz| |sz mz ez];
    cbn; try discriminate; try reflexivity;
    repeat match goal with s : bool |- _ => destruct s end;
    cbn; try discriminate; try reflexivity.
  all: change (PosDef.Pos.compare_cont Eq) with Pos.compare.
  all: destruct (Z.compare_spec ex ey), (Z.compare_spec ey ez), (Z.compare_spec ex ez);
    try lia; subst; cbn; try discriminate; try reflexivity.
  all: destruct (Pos.compare_spec mx my), (Pos.compare_spec my mz), (Pos.compare_spec mx mz);
    try lia; subst; cbn; try discriminate; try reflexivity; try lia.
Qed.

Lemma is_nan_false x : is_nan x = false -> Prim2SF x <> S754_nan.
Proof.
  unfold is_nan. rewrite FloatAxioms.eqb_spec. unfold SFeqb.
  intros H Hn. rewrite Hn in H. discriminate.
Qed.

Lemma leb_total x y :
  is_nan x = false -> is_nan y = false ->
  (x <=? y)%float = true \/ (y <=? x)%float = true.
Proof.
  intros Hx%is_nan_false Hy%is_nan_false. rewrite !FloatAxioms.leb_spec. unfold SFleb.
  destruct (SFcompare_Some _ _ Hx Hy) as [c Hc].
  rewrite Hc, (SFcompare_antisym _ _ _ Hc). destruct c; cbn; auto.
Qed.

Lemma leb_trans x y z :
  (x <=? y)%float = true -> (y <=? z)%float = true -> (x <=? z)%float = true.
Proof. rewrite !FloatAxioms.leb_spec. apply SFleb_trans. Qed.

(** *** Descending with NaN last is a total preorder *)

Lemma usd_desc_total : Total usd_desc.
Proof.
  intros a b. unfold usd_desc.
  destruct (is_nan (USDVolume a)) eqn:Ha, (is_nan (USDVolume b)) eqn:Hb; cbn; auto.
  destruct (leb_total _ _ Ha Hb); auto.
Qed.

Lemma usd_desc_trans : Transitive usd_desc.
Proof.
  intros a b c. unfold usd_desc.
  destruct (is_nan (USDVolume c)) eqn:Hc; cbn; [reflexivity|].
  destruct (is_nan (USDVolume b)) eqn:Hb; cbn; [discriminate|].
  destruct (is_nan (USDVolume a)) eqn:Ha; cbn; [discriminate|].
  intros Hba Hcb. eapply leb_trans; eassumption.
Qed.

Lemma sort_values_sorted (all_markets : list Market) :
  StronglySorted usd_desc (sort_values_USDVolume_desc all_markets).
Proof.
  apply StronglySorted_merge_sort; [apply usd_desc_trans | apply usd_desc_total].
Qed.

Lemma sort_values_permutation (all_markets : list Market) :
  sort_values_USDVolume_desc all_markets ≡ₚ all_markets.
Proof. apply merge_sort_Permutation. Qed.

(** *** The ranking *)

Section RankingFacts.
Context {OrderBookMessage : Type}.
Implicit Types w : World OrderBookMessage.

Lemma loc_price_present (all_markets : list Ticker) (label : string) :
  label ∈ map Index all_markets -> exists p, loc_price all_markets label = Ok p.
Proof.
  unfold loc_price. induction all_markets as [|row rows IH]; cbn.
  - intros H. inversion H.
  - intros H. destruct (String.eqb_spec (Index row) label) as [Heq|Hne]; [eauto|].
    apply IH. inversion H; subst; [contradiction|assumption].
Qed.

Lemma loc_price_absent (all_markets : list Ticker) (label : string) :
  label ∉ map Index all_markets -> loc_price all_markets label = Error (KeyError label).
Proof.
  unfold loc_price. induction all_markets as [|row rows IH]; cbn; [reflexivity|].
  intros H. destruct (String.eqb_spec (Index row) label) as [Heq|Hne].
  - exfalso. apply H. rewrite Heq. left.
  - apply IH. intros Hin. apply H. right. exact Hin.
Qed.

(** One row: a USD volume is always appended; it is NaN, with the error
    logged, when no suffix matches. *)
Lemma usd_volume_of_spec (row : Ticker) (b e eu g : float) w :
  exists usd w',
    usd_volume_of row b e eu g w = (Return usd, w')
    /\ replies w' = replies w /\ now w' = now w /\ output w' = output w
    /\ trace w' = trace w ++ (if unconvertible (Index row)
                              then [unconvertible_log (Index row)] else [])
    /\ (unconvertible (Index row) = true -> usd = NaN).
Proof.
  unfold usd_volume_of, unconvertible, known_suffixes, endswith_any.
  cbn [existsb].
  repeat match goal with
         | |- context [endswith (Index row) ?s] => destruct (endswith (Index row) s)
         end;
    cbn [orb negb]; unfold ret, bind, emit;
    eexists _, _; (split; [reflexivity|]); cbn [replies now output trace];
    rewrite ?app_nil_r; repeat split; try reflexivity; discriminate.
Qed.

Lemma usd_volumes_spec (rows : list Ticker) (b e eu g : float) :
  forall w, exists markets w',
    usd_volumes rows b e eu g w = (Return markets, w')
    /\ replies w' = replies w /\ now w' = now w /\ output w' = output w
    /\ trace w' = trace w ++ map unconvertible_log (List.filter unconvertible (map Index rows))
    /\ map ticker markets = rows
    /\ Forall (fun m => unconvertible (Index (ticker m)) = true -> USDVolume m = NaN) markets.
Proof.
  induction rows as [|row rows IH]; intros w; cbn [usd_volumes].
  - exists [], w. cbn. rewrite app_nil_r. repeat split; auto.
  - destruct (usd_volume_of_spec row b e eu g w)
      as (usd & w1 & Hrun & Hrep & Hnow & Hout & Htr & Hnan).
    destruct (IH w1) as (markets & w2 & Hrun2 & Hrep2 & Hnow2 & Hout2 & Htr2 & Hmap & Hall).
    exists ({| ticker := row; USDVolume := usd |} :: markets), w2.
    unfold bind. rewrite Hrun, Hrun2. cbn.
    split; [reflexivity|]. repeat split; try congruence.
    + rewrite Htr2, Htr. destruct (unconvertible (Index row)); cbn;
        rewrite <- ?app_assoc, ?app_nil_r; reflexivity.
    + constructor; [exact Hnan | exact Hall].
Qed.

(** C6, as the code has it: for a product table with distinct ids that
    holds the four reference instruments, the ranking is produced; its
    rows are those of the table, in descending order of USD volume with the
    NaN volumes last, each id once; and every row whose id ends in no
    known suffix is in the ranking with a NaN USD volume, its error logged,
    the batch going on. *)
Theorem rank_by_usd_volume_sorted (all_markets : list Ticker) w :
  NoDup (map Index all_markets) ->
  Forall (fun label => label ∈ map Index all_markets) reference_pairs ->
  exists result w',
    rank_by_usd_volume all_markets w = (Return result, w')
    /\ StronglySorted usd_desc result
    /\ map ticker result ≡ₚ all_markets
    /\ trace w' = trace w
                  ++ map unconvertible_log (List.filter unconvertible (map Index all_markets))
    /\ NoDup (map Index (map ticker result))
    /\ forall row, row ∈ all_markets -> unconvertible (Index row) = true ->
         exists m, m ∈ result /\ ticker m = row /\ is_nan (USDVolume m) = true
                   /\ unconvertible_log (Index row) ∈ trace w'.
Proof.
  intros Hdistinct Href. unfold reference_pairs in Href.
  repeat match goal with
         | H : Forall _ (_ :: _) |- _ => apply Forall_cons in H as [?H H]
         end.
  repeat match goal with
         | H : _ ∈ map Index all_markets |- _ =>
             apply loc_price_present in H as [? ?]
         end.
  unfold rank_by_usd_volume, bind, lift.
  repeat match goal with H : loc_price _ _ = _ |- _ => rewrite H; clear H end.
  cbn [outcome_of].
  match goal with
  | |- context [usd_volumes all_markets ?b ?e ?eu ?g w] =>
      destruct (usd_volumes_spec all_markets b e eu g w)
        as (markets & w' & Hrun & _ & _ & _ & Htr & Hmap & Hnan)
  end.
  rewrite Hrun. exists (sort_values_USDVolume_desc markets), w'.
  split; [reflexivity|]. split; [apply sort_values_sorted|].
  split; [rewrite sort_values_permutation, Hmap; reflexivity|].
  split; [exact Htr|].
  split; [rewrite sort_values_permutation, Hmap; exact Hdistinct|].
  intros row Hrow Hun.
  rewrite <- Hmap in Hrow. apply list_elem_of_fmap in Hrow as (m & -> & Hm).
  exists m. split; [rewrite sort_values_permutation; exact Hm|].
  split; [reflexivity|]. split.
  - rewrite Forall_forall in Hnan. rewrite (Hnan m Hm Hun). reflexivity.
  - rewrite Htr. apply elem_of_app. right.
    apply list_elem_of_fmap. exists (Index (ticker m)). split; [reflexivity|].
    apply list_elem_of_In, filter_In. split; [|exact Hun].
    apply list_elem_of_In, list_elem_of_fmap. exists (ticker m). split; [reflexivity|].
    rewrite <- Hmap. apply list_elem_of_fmap. eauto.
Qed.

End RankingFacts.

(** C6 at work, on [sample_markets]. *)
Lemma rank_by_usd_volume_sorted_witness :
  exists result w',
    rank_by_usd_volume sample_markets (fresh_world unit []) = (Return result, w')
    /\ StronglySorted usd_desc result
    /\ map ticker result ≡ₚ sample_markets
    /\ trace w' = trace (fresh_world unit [])
                  ++ map unconvertible_log (List.filter unconvertible (map Index sample_markets))
    /\ NoDup (map Index (map ticker result))
    /\ forall row, row ∈ sample_markets -> unconvertible (Index row) = true ->
         exists m, m ∈ result /\ ticker m = row /\ is_nan (USDVolume m) = true
                   /\ unconvertible_log (Index row) ∈ trace w'.
Proof.
  apply (rank_by_usd_volume_sorted sample_markets (fresh_world unit [])).
  - apply (bool_decide_unpack _). vm_compute. exact I.
  - apply (bool_decide_unpack _). vm_compute. exact I.
Defined.

(** The ranking of [sample_markets]: USD volumes 450000, 90000, 45000 and
    20000, then the NaN of XRP-JPY. *)
Example rank_sample_markets :
  exists result w',
    rank_by_usd_volume sample_markets (fresh_world unit []) = (Return result, w')
    /\ map (fun m => (Index (ticker m), USDVolume m)) result
       = [ ("BTC-USD", 450000%float); ("BTC-EUR", 90000%float); ("BTC-GBP", 45000%float);
           ("ETH-USD", 20000%float); ("XRP-JPY", nan) ]
    /\ trace w' = [unconvertible_log "XRP-JPY"].
Proof. eexists _, _. split; [vm_compute; reflexivity|]. split; reflexivity. Qed.

(** C6, as stated, fails on a table without the reference instruments:
    for the one-row table of XRP-JPY, whose suffix matches no conversion
    path, line 90 raises [KeyError]; there is no ranking, XRP-JPY gets no
    USD volume and nothing is logged.  The same through
    [get_active_exchange_markets], the exchange listing that one product. *)
Lemma rank_by_usd_volume_aborts_without_reference_pairs :
  unconvertible "XRP-JPY" = true
  /\ rank_by_usd_volume
       [ {| Index := "XRP-JPY"; columns := ∅; volume := 7; price := 30 |} ]
       (fresh_world unit [])
     = (Raise (KeyError "BTC-USD"), fresh_world unit [])
  /\ (let r := sample_discovery (fresh_world JSON [products_ok ["XRP-JPY"]; ticker_ok 7 30]) in
      fst r = Raise (KeyError "BTC-USD")
      /\ trace (snd r)
         = [ EvGet (COINBASE_REST_URL +:+ "/products"); EvGet (ticker_url "XRP-JPY");
             EvSleep (1 # 2) ]).
Proof. split; [reflexivity|]. split; [reflexivity|]. split; vm_compute; reflexivity. Qed.

(** ** Tracking entry builder *)

Section TrackingFacts.
Context {OrderBookMessage : Type}.
Variable snapshot_message_from_exchange :
  JSON -> Q -> gmap string string -> result OrderBookMessage.
Variables OrderBook ActiveOrderTracker OrderBookRows : Type.
Variable CoinbaseProOrderBook : OrderBook.
Variable CoinbaseProActiveOrderTracker : ActiveOrderTracker.
Variable convert_snapshot_message_to_order_book_row :
  ActiveOrderTracker -> OrderBookMessage ->
  result (ActiveOrderTracker * (OrderBookRows * OrderBookRows)).
Variable update_id : OrderBookMessage -> result Z.
Variable apply_snapshot :
  OrderBook -> OrderBookRows -> OrderBookRows -> Z -> result OrderBook.
Implicit Types w : World OrderBookMessage.

Local Abbreviation Entry := (CoinbaseProOrderBookTrackerEntry OrderBook ActiveOrderTracker).
Local Abbreviation build_entry' :=
  (build_entry snapshot_message_from_exchange OrderBook ActiveOrderTracker OrderBookRows
     CoinbaseProOrderBook CoinbaseProActiveOrderTracker
     convert_snapshot_message_to_order_book_row update_id apply_snapshot).
Local Abbreviation attempt' :=
  (attempt snapshot_message_from_exchange OrderBook ActiveOrderTracker OrderBookRows
     CoinbaseProOrderBook CoinbaseProActiveOrderTracker
     convert_snapshot_message_to_order_book_row update_id apply_snapshot).
Local Abbreviation attempts' :=
  (attempts snapshot_message_from_exchange OrderBook ActiveOrderTracker OrderBookRows
     CoinbaseProOrderBook CoinbaseProActiveOrderTracker
     convert_snapshot_message_to_order_book_row update_id apply_snapshot).
Local Abbreviation tracking_loop' :=
  (tracking_loop snapshot_message_from_exchange OrderBook ActiveOrderTracker OrderBookRows
     CoinbaseProOrderBook CoinbaseProActiveOrderTracker
     convert_snapshot_message_to_order_book_row update_id apply_snapshot).

(** One instrument: the [try] block of lines 149-172. *)
Lemma tracking_loop_step (index number_of_pairs : nat) (trading_pair : string)
    (rest : list string) (retval : gmap string Entry) (answer : reply) (answers : list reply) w :
  replies w = answer :: answers ->
  attempt' trading_pair answer (now w) <> Error CancelledError ->
  exists w1,
    tracking_loop' index number_of_pairs (trading_pair :: rest) retval w
    = tracking_loop' (S index) number_of_pairs rest
        (match attempt' trading_pair answer (now w) with
         | Ok entry => <[ trading_pair := entry ]> retval
         | Error _ => retval
         end) w1
    /\ replies w1 = answers
    /\ now w1 = match attempt' trading_pair answer (now w) with
                | Ok _ => (now w + (6 # 10))%Q
                | Error _ => now w
                end
    /\ output w1 = output w
    /\ requests (trace w1) = requests (trace w) ++ [snapshot_url trading_pair]
    /\ (forall e, attempt' trading_pair answer (now w) = Error e ->
          snapshot_error_log trading_pair ∈ trace w1)
    /\ (forall ev, ev ∈ trace w -> ev ∈ trace w1).
Proof.
  intros Hrep Hnc. cbn [tracking_loop].
  assert (Hreq : forall t url, requests (t ++ [EvGet url]) = requests t ++ [url])
    by (intros; rewrite requests_app; reflexivity).
  assert (Hlog : forall t s, requests (t ++ [EvLogError s]) = requests t)
    by (intros; rewrite requests_app; apply app_nil_r).
  assert (Hinfo : forall t s, requests (t ++ [EvLogInfo s]) = requests t)
    by (intros; rewrite requests_app; apply app_nil_r).
  assert (Hsl : forall t d, requests (t ++ [EvSleep d]) = requests t)
    by (intros; rewrite requests_app; apply app_nil_r).
  unfold snapshot_error_log, snapshot_url, attempt in *.
  run_coroutine. rewrite Hrep. run_coroutine.
  destruct answer as [response|e]; run_coroutine.
  - destruct (status response =? 200)%Z; run_coroutine.
    + destruct (build_entry' trading_pair (json response) (now w)) as [entry|e];
        run_coroutine.
      * eexists. split; [reflexivity|]. cbn [replies now output trace].
        rewrite Hsl, Hinfo, Hreq.
        repeat split; try reflexivity; [discriminate|].
        intros ev Hev. rewrite !elem_of_app. auto.
      * destruct e; try contradiction; run_coroutine;
          (eexists; split; [reflexivity|]); cbn [replies now output trace];
          rewrite Hlog, Hreq; (repeat split; try reflexivity);
          intros; rewrite !elem_of_app, ?list_elem_of_singleton; auto.
    + eexists. split; [reflexivity|]. cbn [replies now output trace].
      rewrite Hlog, Hreq. repeat split; try reflexivity;
        intros; rewrite !elem_of_app, ?list_elem_of_singleton; auto.
  - destruct e; try contradiction; run_coroutine;
      (eexists; split; [reflexivity|]); cbn [replies now output trace];
      rewrite Hlog, Hreq; (repeat split; try reflexivity);
      intros; rewrite !elem_of_app, ?list_elem_of_singleton; auto.
Qed.

Lemma tracking_loop_spec (trading_pairs : list string) :
  forall (index number_of_pairs : nat) (retval : gmap string Entry) w,
    (length trading_pairs <= length (replies w))%nat ->
    uncancelled (attempts' trading_pairs (replies w) (now w)) ->
    exists retval' w',
      tracking_loop' index number_of_pairs trading_pairs retval w = (Return retval', w')
      /\ dom retval'
         = dom retval ∪ list_to_set (succeeded (attempts' trading_pairs (replies w) (now w)))
      /\ requests (trace w') = requests (trace w) ++ map snapshot_url trading_pairs
      /\ (forall trading_pair,
            trading_pair ∈ failed (attempts' trading_pairs (replies w) (now w)) ->
            snapshot_error_log trading_pair ∈ trace w')
      /\ (forall ev, ev ∈ trace w -> ev ∈ trace w')
      /\ output w' = output w.
Proof.
  induction trading_pairs as [|trading_pair rest IH];
    intros index number_of_pairs retval w Hlen Hnc.
  - exists retval, w. cbn. rewrite app_nil_r.
    repeat split; auto; [set_solver | intros tp Htp; inversion Htp].
  - destruct (replies w) as [|answer answers] eqn:Hrep; [cbn in Hlen; lia|].
    cbn [attempts] in *. apply Forall_cons in Hnc as [Hnc1 Hnc].
    destruct (tracking_loop_step index number_of_pairs trading_pair rest retval
                answer answers w Hrep Hnc1)
      as (w1 & Hrun & Hrep1 & Hnow1 & Hout1 & Hreq1 & Hlog1 & Hmono1).
    rewrite Hrun. rewrite <- Hrep1, <- Hnow1 in Hnc |- *.
    set (retval1 := match attempt' trading_pair answer (now w) with
                    | Ok entry => <[ trading_pair := entry ]> retval
                    | Error _ => retval
                    end).
    destruct (IH (S index) number_of_pairs retval1 w1) as
      (retval' & w' & Hrun' & Hdom & Hreq & Hlog & Hmono & Hout);
      [rewrite Hrep1; cbn in Hlen; lia | exact Hnc |].
    exists retval', w'. split; [exact Hrun'|].
    split; [|split; [|split; [|split]]].
    + rewrite Hdom. unfold succeeded at 2, retval1. cbn [omap].
      destruct (attempt' trading_pair answer (now w)) as [entry|e]; cbn.
      * rewrite dom_insert_L. fold (succeeded (attempts' rest (replies w1) (now w1))).
        set_solver.
      * reflexivity.
    + rewrite Hreq, Hreq1, <- app_assoc. reflexivity.
    + intros tp. unfold failed at 1. cbn [omap].
      destruct (attempt' trading_pair answer (now w)) as [entry|e] eqn:Hatt; cbn.
      * apply Hlog.
      * intros [->|Htp]%elem_of_cons; [apply Hmono; eapply Hlog1; reflexivity|].
        apply Hlog, Htp.
    + intros ev Hev. apply Hmono, Hmono1, Hev.
    + congruence.
Qed.

Variable active_exchange_markets : coroutine OrderBookMessage (list Market).

Local Abbreviation get_tracking_pairs' :=
  (get_tracking_pairs active_exchange_markets
     snapshot_message_from_exchange OrderBook ActiveOrderTracker OrderBookRows
     CoinbaseProOrderBook CoinbaseProActiveOrderTracker
     convert_snapshot_message_to_order_book_row update_id apply_snapshot).

(** C9: the tracking-entry builder over the list [trading_pairs], the
    exchange holding an answer for each and no cancellation arriving.  It
    returns a mapping; the keys are exactly the instruments whose processing
    succeeded; every instrument was requested, in order, whatever failed
    before it; and every failure was logged. *)
Theorem get_tracking_pairs_keys (trading_pairs : list string) w :
  (length trading_pairs <= length (replies w))%nat ->
  uncancelled (attempts' trading_pairs (replies w) (now w)) ->
  exists retval w',
    get_tracking_pairs' (Some trading_pairs) w = (Return retval, w')
    /\ dom retval = list_to_set (succeeded (attempts' trading_pairs (replies w) (now w)))
    /\ requests (trace w') = requests (trace w) ++ map snapshot_url trading_pairs
    /\ forall trading_pair,
         trading_pair ∈ failed (attempts' trading_pairs (replies w) (now w)) ->
         snapshot_error_log trading_pair ∈ trace w'.
Proof.
  intros Hlen Hnc.
  destruct (tracking_loop_spec trading_pairs 0 (length trading_pairs) ∅ w Hlen Hnc)
    as (retval & w' & Hrun & Hdom & Hreq & Hlog & _ & _).
  exists retval, w'. split; [exact Hrun|].
  split; [rewrite Hdom; set_solver|]. split; assumption.
Qed.

End TrackingFacts.

(** ** The metadata of the two snapshot paths *)

(** The builder, run on one instrument whose snapshot request is answered
    with a 200: the message it converts is the constructor's result on the
    answer, the time of the answer and [tracking_metadata]; the order book
    and the tracker stored under the instrument are what the conversion of
    that message and the snapshot applied to a fresh book give. *)
Lemma get_tracking_pairs_builds_from_tracking_metadata
    (OrderBookMessage : Type)
    (snapshot_message_from_exchange :
       JSON -> Q -> gmap string string -> result OrderBookMessage)
    (OrderBook ActiveOrderTracker OrderBookRows : Type)
    (CoinbaseProOrderBook : OrderBook)
    (CoinbaseProActiveOrderTracker : ActiveOrderTracker)
    (convert_snapshot_message_to_order_book_row :
       ActiveOrderTracker -> OrderBookMessage ->
       result (ActiveOrderTracker * (OrderBookRows * OrderBookRows)))
    (update_id : OrderBookMessage -> result Z)
    (apply_snapshot : OrderBook -> OrderBookRows -> OrderBookRows -> Z -> result OrderBook)
    (active_exchange_markets : coroutine OrderBookMessage (list Market))
    (trading_pair : string) (w : World OrderBookMessage)
    (response : ClientResponse) (rest : list reply)
    (snapshot_msg : OrderBookMessage) (tracker : ActiveOrderTracker)
    (bids asks : OrderBookRows) (uid : Z) (book : OrderBook) :
  replies w = Reply response :: rest ->
  status response = 200%Z ->
  snapshot_message_from_exchange (json response) (now w) (tracking_metadata trading_pair)
  = Ok snapshot_msg ->
  convert_snapshot_message_to_order_book_row CoinbaseProActiveOrderTracker snapshot_msg
  = Ok (tracker, (bids, asks)) ->
  update_id snapshot_msg = Ok uid ->
  apply_snapshot CoinbaseProOrderBook bids asks uid = Ok book ->
  fst (get_tracking_pairs active_exchange_markets snapshot_message_from_exchange
         OrderBook ActiveOrderTracker OrderBookRows CoinbaseProOrderBook
         CoinbaseProActiveOrderTracker convert_snapshot_message_to_order_book_row
         update_id apply_snapshot (Some [trading_pair]) w)
  = Return {[ trading_pair := {| symbol := trading_pair;
                                 timestamp := now w;
                                 order_book := book;
                                 active_order_tracker := tracker |} ]}.
Proof.
  intros Hrep Hok Hmsg Hconv Huid Happly.
  assert (Hatt : attempt snapshot_message_from_exchange OrderBook ActiveOrderTracker
                   OrderBookRows CoinbaseProOrderBook CoinbaseProActiveOrderTracker
                   convert_snapshot_message_to_order_book_row update_id apply_snapshot
                   trading_pair (Reply response) (now w)
                 = Ok {| symbol := trading_pair;
                         timestamp := now w;
                         order_book := book;
                         active_order_tracker := tracker |}).
  { unfold attempt. rewrite Hok. cbn [Z.eqb Pos.eqb].
    unfold build_entry, tracking_snapshot_msg. rewrite Hmsg. cbn [obind].
    rewrite Hconv. cbn [obind]. rewrite Huid. cbn [obind]. rewrite Happly. reflexivity. }
  destruct (tracking_loop_step snapshot_message_from_exchange OrderBook ActiveOrderTracker
              OrderBookRows CoinbaseProOrderBook CoinbaseProActiveOrderTracker
              convert_snapshot_message_to_order_book_row update_id apply_snapshot
              0 1 trading_pair [] ∅ (Reply response) rest w Hrep)
    as (w1 & Hrun & _).
  { rewrite Hatt. discriminate. }
  rewrite Hatt in Hrun.
  unfold get_tracking_pairs, get_trading_pairs. unfold bind at 1, ret at 1.
  cbn [length]. rewrite Hrun. cbn [tracking_loop]. unfold ret. cbn [fst].
  rewrite insert_empty. reflexivity.
Qed.

(** The refresher, run on one instrument whose snapshot request is answered
    with a 200: the message it enqueues is the constructor's result on the
    answer, the time of the answer and [refresher_metadata]. *)
Lemma snapshot_pass_builds_from_refresher_metadata
    (OrderBookMessage : Type)
    (snapshot_message_from_exchange :
       JSON -> Q -> gmap string string -> result OrderBookMessage)
    (trading_pair : string) (w : World OrderBookMessage)
    (response : ClientResponse) (rest : list reply) (snapshot_msg : OrderBookMessage) :
  replies w = Reply response :: rest ->
  status response = 200%Z ->
  snapshot_message_from_exchange (json response) (now w) (refresher_metadata trading_pair)
  = Ok snapshot_msg ->
  output (snd (snapshot_pass snapshot_message_from_exchange [trading_pair] w))
  = output w ++ [snapshot_msg].
Proof.
  intros Hrep Hok Hconv.
  cbn [snapshot_pass]. unfold refresher_snapshot_msg.
  run_coroutine. rewrite Hrep. run_coroutine. rewrite Hok. cbn [Z.eqb Pos.eqb].
  run_coroutine. rewrite Hconv. run_coroutine.
  reflexivity.
Qed.

(** C10: the builder tags a snapshot message with the instrument id under
    ["symbol"] and the periodic refresher under ["product_id"]; each
    dictionary has no entry under the other's key, so the two are never
    equal.  This is read off the two coroutines as they run.  For every
    message constructor and every order book class, the entry that
    [get_tracking_pairs] stores for an instrument is built from the
    constructor's result on [tracking_metadata], and the message that the
    refresher's pass enqueues is the constructor's result on
    [refresher_metadata].  And with a constructor that hands back the
    metadata it was given, and a tracker that keeps the message it
    converted, the builder's entry holds the instrument under ["symbol"]
    and nothing under ["product_id"], the refresher's queue holds it under
    ["product_id"] and nothing under ["symbol"], and the two dictionaries
    differ. *)
Theorem snapshot_metadata_keys_differ (trading_pair : string) :
  (forall (OrderBookMessage : Type)
          (snapshot_message_from_exchange :
             JSON -> Q -> gmap string string -> result OrderBookMessage)
          (OrderBook ActiveOrderTracker OrderBookRows : Type)
          (CoinbaseProOrderBook : OrderBook)
          (CoinbaseProActiveOrderTracker : ActiveOrderTracker)
          (convert_snapshot_message_to_order_book_row :
             ActiveOrderTracker -> OrderBookMessage ->
             result (ActiveOrderTracker * (OrderBookRows * OrderBookRows)))
          (update_id : OrderBookMessage -> result Z)
          (apply_snapshot :
             OrderBook -> OrderBookRows -> OrderBookRows -> Z -> result OrderBook)
          (active_exchange_markets : coroutine OrderBookMessage (list Market))
          (w : World OrderBookMessage) response rest snapshot_msg tracker bids asks uid book,
      replies w = Reply response :: rest ->
      status response = 200%Z ->
      snapshot_message_from_exchange (json response) (now w)
        {[ "symbol" := trading_pair ]} = Ok snapshot_msg ->
      convert_snapshot_message_to_order_book_row CoinbaseProActiveOrderTracker snapshot_msg
      = Ok (tracker, (bids, asks)) ->
      update_id snapshot_msg = Ok uid ->
      apply_snapshot CoinbaseProOrderBook bids asks uid = Ok book ->
      fst (get_tracking_pairs active_exchange_markets snapshot_message_from_exchange
             OrderBook ActiveOrderTracker OrderBookRows CoinbaseProOrderBook
             CoinbaseProActiveOrderTracker convert_snapshot_message_to_order_book_row
             update_id apply_snapshot (Some [trading_pair]) w)
      = Return {[ trading_pair := {| symbol := trading_pair;
                                     timestamp := now w;
                                     order_book := book;
                                     active_order_tracker := tracker |} ]})
  /\ (forall (OrderBookMessage : Type)
             (snapshot_message_from_exchange :
                JSON -> Q -> gmap string string -> result OrderBookMessage)
             (w : World OrderBookMessage) response rest snapshot_msg,
        replies w = Reply response :: rest ->
        status response = 200%Z ->
        snapshot_message_from_exchange (json response) (now w)
          {[ "product_id" := trading_pair ]} = Ok snapshot_msg ->
        output (snd (snapshot_pass snapshot_message_from_exchange [trading_pair] w))
        = output w ++ [snapshot_msg])
  /\ (forall (discovery : coroutine (gmap string string) (list Market))
             (w : World (gmap string string)) response rest,
        replies w = Reply response :: rest ->
        status response = 200%Z ->
        exists builder_metadata refresher_metadata,
          fst (probe_tracking_pairs discovery [trading_pair] w)
          = Return {[ trading_pair := {| symbol := trading_pair;
                                         timestamp := now w;
                                         order_book := tt;
                                         active_order_tracker := builder_metadata |} ]}
          /\ output (snd (snapshot_pass metadata_probe [trading_pair] w))
             = output w ++ [refresher_metadata]
          /\ builder_metadata !! "symbol" = Some trading_pair
          /\ builder_metadata !! "product_id" = None
          /\ refresher_metadata !! "product_id" = Some trading_pair
          /\ refresher_metadata !! "symbol" = None
          /\ builder_metadata <> refresher_metadata).
Proof.
  split; [|split].
  - intros. eapply get_tracking_pairs_builds_from_tracking_metadata; eassumption.
  - intros. eapply snapshot_pass_builds_from_refresher_metadata; eassumption.
  - intros discovery w response rest Hrep Hok.
    exists {[ "symbol" := trading_pair ]}, {[ "product_id" := trading_pair ]}.
    split.
    { unfold probe_tracking_pairs.
      eapply get_tracking_pairs_builds_from_tracking_metadata; try eassumption; reflexivity. }
    split.
    { eapply snapshot_pass_builds_from_refresher_metadata; try eassumption; reflexivity. }
    split; [apply lookup_singleton_eq|].
    split; [apply lookup_singleton_ne; discriminate|].
    split; [apply lookup_singleton_eq|].
    split; [apply lookup_singleton_ne; discriminate|].
    intros Heq. apply (f_equal (fun m => m !! "symbol")) in Heq.
    rewrite lookup_singleton_eq, lookup_singleton_ne in Heq; discriminate.
Qed.

(** ** Streaming diff listener: what becomes of a frame *)

Section FrameFacts.
Context {OrderBookMessage : Type}.
Variable diff_message_from_exchange : JSON -> result OrderBookMessage.
Implicit Types w : World OrderBookMessage.

Local Abbreviation on_message' := (on_message diff_message_from_exchange).
Local Abbreviation message_loop' := (message_loop diff_message_from_exchange).

Lemma dict_has_true (fields : gmap string JSON) (key : string) :
  is_Some (fields !! key) -> dict_has fields key = true.
Proof. intros H. unfold dict_has. apply bool_decide_eq_true_2, H. Qed.

Lemma dict_has_false (fields : gmap string JSON) (key : string) :
  fields !! key = None -> dict_has fields key = false.
Proof.
  intros H. unfold dict_has. apply bool_decide_eq_false_2.
  rewrite H. intros [x Hx]. discriminate.
Qed.

(** C1: a [done] frame without a price field is dropped: nothing is put on
    the queue, nothing is raised, the world is as before.  A [done] frame
    with a price field, and every [open], [match] and [change] frame, is
    handed to the diff-message constructor, and the message it returns is
    put at the end of the queue (and were the constructor to raise, that is
    what the frame would come to). *)
Theorem on_message_done_filter (fields : gmap string JSON) w :
  (has_kind fields "done" -> fields !! "price" = None ->
     on_message' (object_frame fields) w = (Return tt, w))
  /\ (forall kind,
        has_kind fields kind ->
        kind = "open" \/ kind = "match" \/ kind = "change"
        \/ (kind = "done" /\ is_Some (fields !! "price")) ->
        (forall order_book_message,
            diff_message_from_exchange (JDict fields) = Ok order_book_message ->
            on_message' (object_frame fields) w = (Return tt, enqueue order_book_message w))
        /\ (forall e,
            diff_message_from_exchange (JDict fields) = Error e ->
            on_message' (object_frame fields) w = (Raise e, w))).
Proof.
  unfold has_kind, on_message, object_frame, loads. split.
  - intros Hkind Hprice. run_coroutine. rewrite Hkind. cbn [from_option id is_None].
    rewrite (dict_has_false _ _ Hprice). reflexivity.
  - intros kind Hkind Hcases. run_coroutine. rewrite Hkind. cbn [from_option id is_None].
    assert (Hconv : (str_eq (JStr kind) "error" = false)
                    /\ str_in (JStr kind) ["open"; "match"; "change"; "done"] = true
                    /\ str_eq (JStr kind) "done" && negb (dict_has fields "price") = false).
    { destruct Hcases as [->|[->|[->|[-> Hprice]]]]; repeat split; try reflexivity.
      rewrite (dict_has_true _ _ Hprice). reflexivity. }
    destruct Hconv as (-> & -> & ->).
    split; intros x Hx; rewrite Hx; reflexivity.
Qed.

(** A frame that arrives within the message timeout is yielded to the
    loop body, and the loop goes on with the next turn afterwards. *)
Lemma message_loop_frame (it : iteration) (rest : list iteration) latency raw_msg w :
  recv it = After latency raw_msg ->
  Qle_bool latency MESSAGE_TIMEOUT = true ->
  message_loop' (it :: rest) w
  = (on_message' raw_msg ;; message_loop' rest) (received latency w).
Proof.
  intros Hrecv Hlat. cbn [message_loop]. unfold bind at 1.
  unfold _inner_messages, try_except, inner_turn, try_except, bind, emit, wait_for.
  rewrite Hrecv, Hlat. reflexivity.
Qed.

(** C2: every frame comes to exactly one of three things: it is ignored
    (nothing enqueued, nothing raised), its diff message is enqueued, or an
    exception is raised with the world untouched.  Frames of kind
    [received], [activate] and [subscriptions] are ignored.  A frame without
    a [type] field (or with a null one), an [error] frame and a frame of any
    other kind than the eight the listener names raise an [Exception]: the
    [ValueError]s of lines 213, 215 and 226, an [error] frame that carries no
    [message] field raising the [KeyError] of the lookup in line 215
    instead.  Such an exception ends the message loop at that frame: the
    rest of the session's frames are not read. *)
Theorem on_message_classification (raw_msg : frame) w :
  (on_message' raw_msg w = (Return tt, w)
   \/ (exists fields order_book_message,
         raw_msg = object_frame fields
         /\ diff_message_from_exchange (JDict fields) = Ok order_book_message
         /\ on_message' raw_msg w = (Return tt, enqueue order_book_message w))
   \/ (exists e, on_message' raw_msg w = (Raise e, w)))
  /\ (forall fields kind,
        raw_msg = object_frame fields -> has_kind fields kind ->
        kind = "received" \/ kind = "activate" \/ kind = "subscriptions" ->
        on_message' raw_msg w = (Return tt, w))
  /\ (forall fields,
        raw_msg = object_frame fields ->
        fields !! "type" = None \/ fields !! "type" = Some JNull ->
        on_message' raw_msg w
        = (Raise (ValueError "Coinbase Pro Websocket message does not contain a type"), w))
  /\ (forall fields,
        raw_msg = object_frame fields -> has_kind fields "error" ->
        exists e,
          on_message' raw_msg w = (Raise e, w)
          /\ is_Exception e = true
          /\ e = match fields !! "message" with
                 | Some _ => ValueError "Coinbase Pro Websocket received error message"
                 | None => KeyError "message"
                 end)
  /\ (forall fields msg_type,
        raw_msg = object_frame fields ->
        fields !! "type" = Some msg_type -> unrecognized msg_type ->
        on_message' raw_msg w
        = (Raise (ValueError "Unrecognized Coinbase Pro Websocket message received"), w))
  /\ (forall e it rest latency,
        on_message' raw_msg (received latency w) = (Raise e, received latency w) ->
        recv it = After latency raw_msg ->
        Qle_bool latency MESSAGE_TIMEOUT = true ->
        message_loop' (it :: rest) w = (Raise e, received latency w)).
Proof.
  split; [|split; [|split; [|split; [|split]]]].
  - unfold on_message, object_frame, loads.
    destruct raw_msg as [[| | | | | |fields]|]; run_coroutine; eauto.
    destruct (is_None _); [eauto|].
    destruct (str_eq _ "error"); [destruct (fields !! "message"); eauto|].
    destruct (str_in _ ["open"; "match"; "change"; "done"]).
    + destruct (str_eq _ "done" && _); [eauto|].
      destruct (diff_message_from_exchange (JDict fields)) as [m|e] eqn:Hconv;
        [right; left; exists fields, m; auto | eauto].
    + destruct (str_in _ ["received"; "activate"; "subscriptions"]); eauto.
  - intros fields kind -> Hkind Hcases.
    unfold has_kind, on_message, object_frame, loads in *. run_coroutine.
    rewrite Hkind. cbn [from_option id is_None].
    destruct Hcases as [->|[->| ->]]; reflexivity.
  - intros fields -> Htype.
    unfold on_message, object_frame, loads. run_coroutine.
    destruct Htype as [-> | ->]; reflexivity.
  - intros fields -> Hkind.
    unfold has_kind, on_message, object_frame, loads in *. run_coroutine.
    rewrite Hkind. cbn [from_option id is_None].
    change (str_eq (JStr "error") "error") with true. cbv iota.
    destruct (fields !! "message"); eexists; repeat split; reflexivity.
  - intros fields msg_type -> Htype [Hnone Hkinds].
    unfold on_message, object_frame, loads. run_coroutine.
    rewrite Htype. cbn [from_option id]. rewrite Hnone.
    unfold str_in, known_kinds in *. cbn [existsb] in *.
    repeat match goal with
           | H : _ || _ = false |- _ => apply orb_false_elim in H as [? H]
           end.
    repeat match goal with
           | H : str_eq msg_type _ = false |- _ => rewrite H; clear H
           end.
    reflexivity.
  - intros e it rest latency Hraise Hrecv Hlat.
    rewrite (message_loop_frame it rest latency raw_msg w Hrecv Hlat).
    unfold bind. rewrite Hraise. reflexivity.
Qed.

End FrameFacts.

(** ** Streaming diff listener: keepalive, reconnection and halting *)

Section ListenerFacts.
Context {OrderBookMessage : Type}.
Variable active_exchange_markets : coroutine OrderBookMessage (list Market).
Variable diff_message_from_exchange : JSON -> result OrderBookMessage.
Implicit Types w : World OrderBookMessage.

Local Abbreviation message_loop' := (message_loop diff_message_from_exchange).
Local Abbreviation get_trading_pairs' := (get_trading_pairs active_exchange_markets).
Local Abbreviation session' := (session active_exchange_markets diff_message_from_exchange).
Local Abbreviation listen_cycle' :=
  (listen_cycle active_exchange_markets diff_message_from_exchange).
Local Abbreviation listen' :=
  (listen_for_order_book_diffs active_exchange_markets diff_message_from_exchange).

Lemma wait_for_exceeds {A} (aw : awaited A) (timeout : Q) w :
  exceeds aw timeout ->
  wait_for aw timeout w
  = (Raise TimeoutError, Build_World (replies w) (now w + timeout)%Q (trace w) (output w)).
Proof.
  unfold exceeds, wait_for. destruct aw as [l a|l e|]; intros H; try rewrite H; reflexivity.
Qed.

(** The message timeout passes, the pong arrives in time: the loop goes on
    to await the next frame. *)
Lemma message_loop_resume (it : iteration) (rest : list iteration) lp pong_waiter l w :
  exceeds (recv it) MESSAGE_TIMEOUT ->
  ping it = After lp pong_waiter ->
  pong_waiter = After l tt ->
  Qle_bool l PING_TIMEOUT = true ->
  exists w',
    message_loop' (it :: rest) w = message_loop' rest w'
    /\ trace w' = trace w ++ [EvRecv MESSAGE_TIMEOUT; EvPing; EvPong PING_TIMEOUT]
    /\ now w' = (now w + MESSAGE_TIMEOUT + lp + l)%Q
    /\ output w' = output w /\ replies w' = replies w.
Proof.
  intros Hlate Hping -> Hpong. cbn [message_loop].
  unfold bind at 1, _inner_messages, try_except at 1, inner_turn, try_except at 1, bind at 1, emit at 1.
  unfold bind at 1. rewrite (wait_for_exceeds _ _ _ Hlate). rewrite Hping.
  run_listener. rewrite Hpong. run_listener.
  eexists. split; [reflexivity|]. cbn [replies now trace output].
  rewrite <- !app_assoc. repeat split; reflexivity.
Qed.

(** The message timeout passes and the pong does not arrive in time
    either: the generator logs the warning, closes the socket and returns,
    and the loop ends whatever frames would have followed. *)
Lemma message_loop_probe_timeout (it : iteration) (rest : list iteration) lp pong_waiter w :
  exceeds (recv it) MESSAGE_TIMEOUT ->
  ping it = After lp pong_waiter ->
  exceeds pong_waiter PING_TIMEOUT ->
  exists w',
    message_loop' (it :: rest) w = (Return tt, w')
    /\ trace w' = trace w ++ [EvRecv MESSAGE_TIMEOUT; EvPing; EvPong PING_TIMEOUT;
                              ping_timeout_warning; EvClose]
    /\ now w' = (now w + MESSAGE_TIMEOUT + lp + PING_TIMEOUT)%Q
    /\ output w' = output w /\ replies w' = replies w.
Proof.
  intros Hlate Hping Hpong. cbn [message_loop].
  unfold bind at 1, _inner_messages, try_except at 1, inner_turn, try_except at 1, bind at 1, emit at 1.
  unfold bind at 1. rewrite (wait_for_exceeds _ _ _ Hlate). rewrite Hping.
  cbv beta iota. unfold bind at 1, emit at 1. unfold bind at 1, await, bind at 1, elapse at 1, ret at 1.
  unfold bind at 1, emit at 1. unfold bind at 1.
  rewrite (wait_for_exceeds _ _ _ Hpong).
  run_listener.
  eexists. split; [reflexivity|]. cbn [replies now trace output].
  rewrite <- !app_assoc. repeat split; reflexivity.
Qed.





(** A session whose discovery, connection and subscription succeed is the
    message loop, the socket being closed when the loop is left. *)
Lemma session_established (_symbols : option (list string)) (c : cycle)
    (trading_pairs : list string) lc ls w w1 :
  get_trading_pairs' _symbols w = (Return trading_pairs, w1) ->
  connect c = After lc tt ->
  send c = After ls tt ->
  session' _symbols c w
  = async_with_ws (message_loop' (turns c)) (subscribed trading_pairs lc ls w1).
Proof.
  intros Hpairs Hconnect Hsend. unfold session, subscribe.
  unfold bind at 1. rewrite Hpairs. rewrite Hconnect, Hsend.
  unfold async_with_ws, subscribed, subscribe_request. run_listener. reflexivity.
Qed.

(** The session fails as discovery does. *)
Lemma session_discovery_raises (_symbols : option (list string)) (c : cycle) e w w1 :
  get_trading_pairs' _symbols w = (Raise e, w1) ->
  session' _symbols c w = (Raise e, w1).
Proof. intros Hpairs. unfold session, bind at 1. rewrite Hpairs. reflexivity. Qed.


(** The loop returns: so does the session, the socket closed once more. *)
Lemma async_with_ws_returns (body : coroutine OrderBookMessage unit) w w1 :
  body w = (Return tt, w1) -> async_with_ws body w = (Return tt, closed w1).
Proof. intros H. unfold async_with_ws. rewrite H. reflexivity. Qed.

Lemma async_with_ws_raises (body : coroutine OrderBookMessage unit) e w w1 :
  body w = (Raise e, w1) -> async_with_ws body w = (Raise e, closed w1).
Proof. intros H. unfold async_with_ws. rewrite H. reflexivity. Qed.

(** *** The outer loop after a session *)

(** A session that returns is followed by the next pass right away. *)
Lemma listen_after_return (_symbols : option (list string)) (c : cycle)
    (cycles : list cycle) w w1 :
  session' _symbols c w = (Return tt, w1) ->
  listen' _symbols (c :: cycles) w = listen' _symbols cycles w1.
Proof.
  intros Hs. cbn [listen_for_order_book_diffs].
  unfold bind at 1, listen_cycle, try_except. rewrite Hs. reflexivity.
Qed.

(** A session that raises an [Exception] is followed by the error log and
    the 30 s sleep, and then by the next pass. *)
Lemma listen_after_failure (_symbols : option (list string)) (c : cycle)
    (cycles : list cycle) e w w1 :
  session' _symbols c w = (Raise e, w1) ->
  e <> CancelledError ->
  cancelled_in_cooldown c = false ->
  listen' _symbols (c :: cycles) w = listen' _symbols cycles (cooled w1).
Proof.
  intros Hs He Hcool. cbn [listen_for_order_book_diffs].
  unfold bind at 1, listen_cycle, try_except. rewrite Hs.
  destruct e; try contradiction; unfold cooldown; rewrite Hcool; reflexivity.
Qed.

(** A cancellation raised in the session leaves the listener as it is. *)
Lemma listen_after_cancel (_symbols : option (list string)) (c : cycle)
    (cycles : list cycle) w w1 :
  session' _symbols c w = (Raise CancelledError, w1) ->
  listen' _symbols (c :: cycles) w = (Raise CancelledError, w1).
Proof.
  intros Hs. cbn [listen_for_order_book_diffs].
  unfold bind at 1, listen_cycle, try_except. rewrite Hs. reflexivity.
Qed.

(** One pass of the outer loop lets nothing but a cancellation out. *)
Lemma listen_cycle_raises (_symbols : option (list string)) (c : cycle) e w w1 :
  listen_cycle' _symbols c w = (Raise e, w1) -> e = CancelledError.
Proof.
  unfold listen_cycle, try_except.
  destruct (session' _symbols c w) as [[[]|e0|] w0]; try discriminate.
  destruct e0; [intros [= <- _]; reflexivity | ..];
    unfold cooldown; destruct (cancelled_in_cooldown c); run_listener;
    intros [= <- _]; reflexivity.
Qed.

(** The listener never returns, and only a cancellation makes it raise. *)
Lemma listen_halts_only_cancelled (_symbols : option (list string)) (cycles : list cycle) :
  forall w,
    match fst (listen' _symbols cycles w) with
    | Return _ => False
    | Raise e => e = CancelledError
    | Unfinished => True
    end.
Proof.
  induction cycles as [|c cycles IH]; intros w; cbn [listen_for_order_book_diffs].
  - exact I.
  - unfold bind. destruct (listen_cycle' _symbols c w) as [[[]|e|] w1] eqn:Hc; cbn [fst].
    + apply IH.
    + eapply listen_cycle_raises, Hc.
    + exact I.
Qed.


(** The message loop returns: the listener starts its next pass at once. *)
Lemma listen_after_loop_returns (_symbols : option (list string)) (c : cycle)
    (cycles : list cycle) (trading_pairs : list string) lc ls w w1 w2 :
  get_trading_pairs' _symbols w = (Return trading_pairs, w1) ->
  connect c = After lc tt ->
  send c = After ls tt ->
  message_loop' (turns c) (subscribed trading_pairs lc ls w1) = (Return tt, w2) ->
  listen' _symbols (c :: cycles) w = listen' _symbols cycles (closed w2).
Proof.
  intros Hpairs Hconnect Hsend Hloop. apply listen_after_return.
  rewrite (session_established _ _ _ _ _ _ _ Hpairs Hconnect Hsend).
  apply async_with_ws_returns, Hloop.
Qed.

(** The message loop raises: the listener starts its next pass after the
    cooldown. *)
Lemma listen_after_loop_raises (_symbols : option (list string)) (c : cycle)
    (cycles : list cycle) (trading_pairs : list string) lc ls e w w1 w2 :
  get_trading_pairs' _symbols w = (Return trading_pairs, w1) ->
  connect c = After lc tt ->
  send c = After ls tt ->
  message_loop' (turns c) (subscribed trading_pairs lc ls w1) = (Raise e, w2) ->
  e <> CancelledError ->
  cancelled_in_cooldown c = false ->
  listen' _symbols (c :: cycles) w = listen' _symbols cycles (cooled (closed w2)).
Proof.
  intros Hpairs Hconnect Hsend Hloop He Hcool.
  apply (listen_after_failure _ _ _ e); [|exact He|exact Hcool].
  rewrite (session_established _ _ _ _ _ _ _ Hpairs Hconnect Hsend).
  apply async_with_ws_raises, Hloop.
Qed.

(** C3: the wait for the next frame exceeds the message timeout of 30 s
    and the ping goes out.  The trace shows the bounded wait for the frame,
    the ping and the wait for its pong bounded by the probe timeout of
    10 s.  If the pong arrives within the probe timeout, the loop goes on
    with the next turn of the same session: nothing is closed, nothing is
    enqueued.  If the pong takes longer, the warning is logged, the socket
    closed and the loop left whatever frames would follow; and a message
    loop that is left this way is followed at once by the listener's next
    pass, which reconnects. *)
Theorem keepalive_probe (it : iteration) (rest : list iteration) lp pong_waiter w :
  exceeds (recv it) MESSAGE_TIMEOUT ->
  ping it = After lp pong_waiter ->
  (MESSAGE_TIMEOUT = 30%Q /\ PING_TIMEOUT = 10%Q)
  /\ (forall l,
        pong_waiter = After l tt -> Qle_bool l PING_TIMEOUT = true ->
        exists w',
          message_loop' (it :: rest) w = message_loop' rest w'
          /\ trace w' = trace w ++ [EvRecv MESSAGE_TIMEOUT; EvPing; EvPong PING_TIMEOUT]
          /\ now w' = (now w + MESSAGE_TIMEOUT + lp + l)%Q
          /\ output w' = output w /\ replies w' = replies w)
  /\ (exceeds pong_waiter PING_TIMEOUT ->
        exists w',
          message_loop' (it :: rest) w = (Return tt, w')
          /\ trace w' = trace w ++ [EvRecv MESSAGE_TIMEOUT; EvPing; EvPong PING_TIMEOUT;
                                    ping_timeout_warning; EvClose]
          /\ now w' = (now w + MESSAGE_TIMEOUT + lp + PING_TIMEOUT)%Q
          /\ output w' = output w /\ replies w' = replies w)
  /\ (forall _symbols c cycles trading_pairs lc ls w0 w1 w2,
        get_trading_pairs' _symbols w0 = (Return trading_pairs, w1) ->
        connect c = After lc tt ->
        send c = After ls tt ->
        message_loop' (turns c) (subscribed trading_pairs lc ls w1) = (Return tt, w2) ->
        listen' _symbols (c :: cycles) w0 = listen' _symbols cycles (closed w2)
        /\ sleeps (trace (closed w2)) = sleeps (trace w2)).
Proof.
  intros Hlate Hping. split; [split; reflexivity|]. split; [|split].
  - intros l Hpong Hl. eapply message_loop_resume; eassumption.
  - intros Hpong. eapply message_loop_probe_timeout; eassumption.
  - intros _symbols c cycles trading_pairs lc ls w0 w1 w2 Hpairs Hconnect Hsend Hloop.
    split; [eapply listen_after_loop_returns; eassumption|].
    unfold closed, sleeps. cbn [trace]. rewrite omap_app. apply app_nil_r.
Qed.




(** C7, as the code has it.  The listener never returns, and the only
    exception it lets out is a cancellation; a cancellation raised in a
    session is let out as it is.  Every other exception of a session, a
    failure of instrument discovery included, is followed (after the
    cooldown) by the next pass of the loop, and a session that ends without
    an exception by the next pass at once. *)
Theorem listener_halts_only_when_cancelled :
  (forall _symbols cycles w,
      match fst (listen' _symbols cycles w) with
      | Return _ => False
      | Raise e => e = CancelledError
      | Unfinished => True
      end)
  /\ (forall _symbols c cycles w w1,
      session' _symbols c w = (Raise CancelledError, w1) ->
      listen' _symbols (c :: cycles) w = (Raise CancelledError, w1))
  /\ (forall _symbols c cycles e w w1,
      get_trading_pairs' _symbols w = (Raise e, w1) ->
      e <> CancelledError -> cancelled_in_cooldown c = false ->
      listen' _symbols (c :: cycles) w = listen' _symbols cycles (cooled w1))
  /\ (forall _symbols c cycles e w w1,
      session' _symbols c w = (Raise e, w1) ->
      e <> CancelledError -> cancelled_in_cooldown c = false ->
      listen' _symbols (c :: cycles) w = listen' _symbols cycles (cooled w1))
  /\ (forall _symbols c cycles w w1,
      session' _symbols c w = (Return tt, w1) ->
      listen' _symbols (c :: cycles) w = listen' _symbols cycles w1).
Proof.
  repeat apply conj.
  - intros _symbols cycles w. apply listen_halts_only_cancelled.
  - intros _symbols c cycles w w1. apply listen_after_cancel.
  - intros _symbols c cycles e w w1 Hpairs He Hcool.
    eapply listen_after_failure; [|exact He|exact Hcool].
    apply session_discovery_raises, Hpairs.
  - intros _symbols c cycles e w w1. apply listen_after_failure.
  - intros _symbols c cycles w w1. apply listen_after_return.
Qed.

End ListenerFacts.

(** * The model at work *)

(** C3 at work: the frame is 40 s away, the pong 3 s. *)
Lemma keepalive_probe_witness :
  exceeds (recv slow_turn) MESSAGE_TIMEOUT
  /\ ping slow_turn = After 0 (After 3 tt)
  /\ exists w',
       message_loop sample_diff_message [slow_turn; dead_turn] (fresh_world JSON [])
       = message_loop sample_diff_message [dead_turn] w'
       /\ trace w' = [EvRecv 30; EvPing; EvPong 10]
       /\ now w' = (0 + 30 + 0 + 3)%Q.
Proof.
  split; [reflexivity|]. split; [reflexivity|].
  destruct (keepalive_probe sample_discovery sample_diff_message slow_turn [dead_turn]
              0 (After 3 tt) (fresh_world JSON []) eq_refl eq_refl)
    as (_ & Hresume & _).
  destruct (Hresume 3%Q eq_refl eq_refl) as (w' & Hrun & Htr & Hnow & _).
  exists w'. split; [exact Hrun|]. split; [exact Htr | exact Hnow].
Defined.

(** And when the pong does not come either: the session is over after
    40 s, with the warning and the socket closed. *)
Example dead_connection_ends_the_loop :
  exists w',
    message_loop sample_diff_message [dead_turn; slow_turn] (fresh_world JSON [])
    = (Return tt, w')
    /\ trace w' = [EvRecv 30; EvPing; EvPong 10; ping_timeout_warning; EvClose]
    /\ now w' = (0 + 30 + 0 + 10)%Q.
Proof. eexists. split; [reflexivity|]. split; reflexivity. Qed.

(** C1 and C2 at work: what the loop body does with frames. *)
Example frames_at_work :
  let w := fresh_world JSON [] in
  on_message sample_diff_message (frame_of_kind "done") w = (Return tt, w)
  /\ output (snd (on_message sample_diff_message (priced_frame "done") w))
     = [JDict {[ "type" := JStr "done"; "price" := JStr "9000.5" ]}]
  /\ output (snd (on_message sample_diff_message (frame_of_kind "match") w))
     = [JDict {[ "type" := JStr "match" ]}]
  /\ on_message sample_diff_message (frame_of_kind "subscriptions") w = (Return tt, w)
  /\ on_message sample_diff_message (object_frame ∅) w
     = (Raise (ValueError "Coinbase Pro Websocket message does not contain a type"), w)
  /\ on_message sample_diff_message (frame_of_kind "heartbeat") w
     = (Raise (ValueError "Unrecognized Coinbase Pro Websocket message received"), w)
  /\ on_message sample_diff_message
       (object_frame {[ "type" := JStr "error"; "message" := JStr "Failed to subscribe" ]}) w
     = (Raise (ValueError "Coinbase Pro Websocket received error message"), w)
  /\ on_message sample_diff_message (frame_of_kind "error") w
     = (Raise (KeyError "message"), w)
  /\ on_message sample_diff_message Garbled w
     = (Raise (ValueError "Expected object or value"), w).
Proof. cbv zeta. repeat split; vm_compute; reflexivity. Qed.

(** C5 at work: nineteen 429s and a 200; twenty 429s; a single 500. *)
Example ticker_retries_at_work :
  let fetch := fetch_ticker sample_float_of_str sample_float_of_int "BTC-USD" in
  let r19 := fetch (fresh_world unit (repeat (status_only 429) 19 ++ [ticker_ok 50 9000])) in
  let r20 := fetch (fresh_world unit (repeat (status_only 429) 20 ++ [ticker_ok 50 9000])) in
  let r500 := fetch (fresh_world unit [status_only 500; ticker_ok 50 9000]) in
  fst r19 = Return (50, 9000)%float
  /\ length (requests (trace (snd r19))) = 20%nat /\ replies (snd r19) = []
  /\ fst r20 = Raise (IOError "Error fetching ticker for BTC-USD on Coinbase Pro.")
  /\ length (requests (trace (snd r20))) = 20%nat
  /\ replies (snd r20) = [ticker_ok 50 9000]
  /\ fst r500 = Raise (IOError "Error fetching ticker for BTC-USD on Coinbase Pro.")
  /\ length (requests (trace (snd r500))) = 1%nat
  /\ sleeps (trace (snd r500)) = [].
Proof. cbv zeta. repeat split; vm_compute; reflexivity. Qed.

(** C9 at work. *)
Lemma get_tracking_pairs_keys_witness :
  exists retval w',
    sample_tracking_pairs five_pairs (fresh_world JSON five_answers) = (Return retval, w')
    /\ dom retval
       = list_to_set
           (succeeded
              (attempts sample_snapshot_message Z unit JSON 0%Z tt
                 sample_convert sample_update_id sample_apply_snapshot
                 five_pairs (replies (fresh_world JSON five_answers))
                 (now (fresh_world JSON five_answers))))
    /\ requests (trace w')
       = requests (trace (fresh_world JSON five_answers)) ++ map snapshot_url five_pairs
    /\ forall trading_pair,
         trading_pair ∈ failed
           (attempts sample_snapshot_message Z unit JSON 0%Z tt
              sample_convert sample_update_id sample_apply_snapshot
              five_pairs (replies (fresh_world JSON five_answers))
              (now (fresh_world JSON five_answers))) ->
         snapshot_error_log trading_pair ∈ trace w'.
Proof.
  apply (get_tracking_pairs_keys sample_snapshot_message Z unit JSON 0%Z tt
           sample_convert sample_update_id sample_apply_snapshot sample_discovery
           five_pairs (fresh_world JSON five_answers)).
  - vm_compute. lia.
  - vm_compute. repeat constructor; discriminate.
Defined.

(** The keys of that batch, and who failed. *)
Example five_pairs_keys :
  exists retval w',
    sample_tracking_pairs five_pairs (fresh_world JSON five_answers) = (Return retval, w')
    /\ dom retval = {[ "BTC-USD"; "BCH-USD" ]}
    /\ (symbol <$> retval !! "BCH-USD") = Some "BCH-USD"
    /\ (order_book <$> retval !! "BCH-USD") = Some 12%Z
    /\ failed (attempts sample_snapshot_message Z unit JSON 0%Z tt
                 sample_convert sample_update_id sample_apply_snapshot
                 five_pairs five_answers 0)
       = ["ETH-USD"; "LTC-USD"; "XRP-USD"]
    /\ sleeps (trace w') = [6 # 10; 6 # 10]%Q.
Proof.
  eexists _, _. split; [vm_compute; reflexivity|]. repeat split; vm_compute; reflexivity.
Qed.


(** C7, as stated, fails where it has the listener halt on a failed
    instrument discovery: the discovery call is inside the listener's [try].
    Here the product list is refused with status 500, [get_trading_pairs]
    raises the fetch error, and the listener logs it, sleeps 30 s, runs
    discovery again, connects, subscribes to the four products in ranking
    order and enqueues the diff message of the frame it receives; it is
    still running when the script ends. *)
Lemma listener_outlives_failed_discovery :
  let w0 := fresh_world JSON discovery_answers in
  let r := listen_for_order_book_diffs sample_discovery sample_diff_message
             None [healthy_cycle; healthy_cycle] w0 in
  fst (get_trading_pairs sample_discovery None w0)
  = Raise (IOError "Error fetching active Coinbase Pro markets.")
  /\ fst r = Unfinished
  /\ take 3 (trace (snd r))
     = [EvGet (COINBASE_REST_URL +:+ "/products"); reconnect_error; EvSleep 30]
  /\ drop 12 (trace (snd r))
     = [ EvConnect COINBASE_WS_FEED;
         EvSend (subscribe_request ["BTC-USD"; "BTC-EUR"; "BTC-GBP"; "ETH-USD"]);
         EvRecv MESSAGE_TIMEOUT ]
  /\ output (snd r) = [JDict {[ "type" := JStr "match"; "price" := JStr "9000.5" ]}].
Proof. cbv zeta. repeat split; vm_compute; reflexivity. Qed.

(** A whole run: a frame, a quiet spell survived by a ping, a dropped
    [done] frame, a dead connection and an immediate reconnect; then an
    unknown kind, the cooldown, and a cancellation while a frame is
    awaited. *)
Example listener_at_work :
  let first := {| connect := After 1 tt; send := After 0 tt;
                  turns := [ {| recv := After 1 (priced_frame "match"); ping := answered |};
                             slow_turn;
                             {| recv := After 2 (frame_of_kind "done"); ping := answered |};
                             dead_turn ];
                  cancelled_in_cooldown := false |} in
  let second := {| connect := After 1 tt; send := After 0 tt;
                   turns := [ {| recv := After 1 (frame_of_kind "heartbeat");
                                 ping := answered |} ];
                   cancelled_in_cooldown := false |} in
  let third := {| connect := After 1 tt; send := After 0 tt;
                  turns := [ {| recv := FailsAfter 5 CancelledError; ping := answered |} ];
                  cancelled_in_cooldown := false |} in
  let r := listen_for_order_book_diffs sample_discovery sample_diff_message
             (Some ["BTC-USD"]) [first; second; third] (fresh_world JSON []) in
  fst r = Raise CancelledError
  /\ output (snd r) = [JDict {[ "type" := JStr "match"; "price" := JStr "9000.5" ]}]
  /\ sleeps (trace (snd r)) = [30%Q]
  /\ trace (snd r)
     = [ EvConnect COINBASE_WS_FEED; EvSend (subscribe_request ["BTC-USD"]);
         EvRecv 30;
         EvRecv 30; EvPing; EvPong 10;
         EvRecv 30;
         EvRecv 30; EvPing; EvPong 10; ping_timeout_warning; EvClose; EvClose;
         EvConnect COINBASE_WS_FEED; EvSend (subscribe_request ["BTC-USD"]);
         EvRecv 30; EvClose; reconnect_error; EvSleep 30;
         EvConnect COINBASE_WS_FEED; EvSend (subscribe_request ["BTC-USD"]);
         EvRecv 30; EvClose; EvClose ].
Proof. cbv zeta. repeat split; vm_compute; reflexivity. Qed.

(** * Further properties *)

(** ** Market directory: pacing and bounds of the ticker retry loop *)

Lemma sleeps_app t1 t2 : sleeps (t1 ++ t2) = sleeps t1 ++ sleeps t2.
Proof. unfold sleeps. apply omap_app. Qed.



Section TickerPacing.
Context {OrderBookMessage : Type}.
Variable float_of_str : string -> result float.
Variable float_of_int : Z -> result float.
Implicit Types w : World OrderBookMessage.

Local Abbreviation ticker_loop' := (ticker_loop (OrderBookMessage := OrderBookMessage)
                                      float_of_str float_of_int).
Local Abbreviation fetch_ticker' := (fetch_ticker (OrderBookMessage := OrderBookMessage)
                                       float_of_str float_of_int).
Local Abbreviation ticker_data' := (ticker_data float_of_str float_of_int).


(** The retry loop, whatever the exchange answers: [fetch_ticker] issues at
    least one and at most [MAX_RETRIES] requests, all for the product's
    ticker, consumes one scripted answer per request, and is left
    unfinished only when the answers run out. *)
Lemma ticker_loop_requests (product_id : string) :
  forall fuel retry_counter w,
    (0 < fuel)%nat ->
    (retry_counter + fuel = MAX_RETRIES)%nat ->
    exists k,
      (1 <= k <= fuel)%nat
      /\ requests (trace (snd (ticker_loop' fuel product_id retry_counter w)))
         = requests (trace w) ++ repeat (ticker_url product_id) k
      /\ replies (snd (ticker_loop' fuel product_id retry_counter w)) = drop k (replies w)
      /\ output (snd (ticker_loop' fuel product_id retry_counter w)) = output w
      /\ (fst (ticker_loop' fuel product_id retry_counter w) = Unfinished ->
          (length (replies w) < k)%nat).
Proof.
  induction fuel as [|fuel IH]; intros c w Hfuel Hc; [lia|].
  cbn [ticker_loop]. unfold bind, client_get, lift, sleep, emit, elapse, ret, raise.
  destruct (Nat.eqb_spec (S c) MAX_RETRIES) as [Heq|Hne];
    (destruct (replies w) as [|[r|e] answers] eqn:Hrep; cbv beta iota zeta; cbn [tl];
     [exists 1%nat; cbn; rewrite requests_app; repeat split; try reflexivity; lia
     | destruct (status r =? 200)%Z;
       [exists 1%nat;
        destruct (float_field _ _ (json r) "volume") as [v|]; cbn;
        [destruct (float_field _ _ (json r) "price") as [p|]; cbn|..];
        rewrite ?requests_app; cbn; rewrite ?app_nil_r;
        repeat split; try reflexivity; try lia; discriminate |]
     | exists 1%nat; cbn; rewrite requests_app;
       repeat split; try reflexivity; try lia; discriminate]).
  - exists 1%nat. rewrite orb_true_r. cbn. rewrite requests_app.
    repeat split; try reflexivity; try lia; discriminate.
  - destruct (negb (status r =? 429)%Z); cbn [orb].
    + exists 1%nat. cbn. rewrite requests_app.
      repeat split; try reflexivity; try lia; discriminate.
    + unfold bind. cbv beta iota zeta. cbn [replies trace output now].
      match goal with
      | |- context [ticker_loop _ _ fuel product_id (S c) ?w0] =>
          destruct (IH (S c) w0) as (k & Hk & Hreq & Hrepl & Hout & Hunf);
          [destruct fuel; [exfalso; apply Hne; rewrite <- Hc; lia | lia] | lia |]
      end.
      exists (S k). cbn [replies trace output] in *.
      split; [lia|]. split.
      { rewrite Hreq, !requests_app. cbn. rewrite app_nil_r, <- app_assoc. reflexivity. }
      split; [exact Hrepl|]. split; [exact Hout|].
      intros Hu. apply Hunf in Hu. cbn. lia.
Qed.

Theorem fetch_ticker_request_bound (product_id : string) w :
  exists k,
    (1 <= k <= MAX_RETRIES)%nat
    /\ requests (trace (snd (fetch_ticker' product_id w)))
       = requests (trace w) ++ repeat (ticker_url product_id) k
    /\ replies (snd (fetch_ticker' product_id w)) = drop k (replies w)
    /\ output (snd (fetch_ticker' product_id w)) = output w
    /\ (fst (fetch_ticker' product_id w) = Unfinished -> (length (replies w) < k)%nat).
Proof. apply ticker_loop_requests; unfold MAX_RETRIES; lia. Qed.

End TickerPacing.

(** ** Market directory: the refresh end to end *)

Lemma requests_unconvertible_logs (names : list string) :
  requests (map unconvertible_log names) = [].
Proof. induction names as [|name names IH]; [reflexivity | exact IH]. Qed.

Section DirectoryFacts.
Context {OrderBookMessage : Type}.
Variable float_of_str : string -> result float.
Variable float_of_int : Z -> result float.
Variable from_records : JSON -> result (list (string * gmap string JSON)).
Implicit Types w : World OrderBookMessage.

Local Abbreviation fetch_ticker' := (fetch_ticker (OrderBookMessage := OrderBookMessage)
                                       float_of_str float_of_int).
Local Abbreviation fetch_tickers' := (fetch_tickers (OrderBookMessage := OrderBookMessage)
                                        float_of_str float_of_int).
Local Abbreviation ticker_answered' := (ticker_answered float_of_str float_of_int).
Local Abbreviation get_active_exchange_markets' :=
  (get_active_exchange_markets (OrderBookMessage := OrderBookMessage)
     float_of_str float_of_int from_records).

Lemma fetch_ticker_first_try (product_id : string) (ok : ClientResponse) (v p : float)
    (rest : list reply) w :
  status ok = 200%Z ->
  ticker_data float_of_str float_of_int (json ok) = Ok (v, p) ->
  replies w = Reply ok :: rest ->
  fetch_ticker' product_id w
  = (Return (v, p),
     Build_World rest (now w + (1 # 2))%Q
       ((trace w ++ [EvGet (ticker_url product_id)]) ++ [EvSleep (1 # 2)]) (output w)).
Proof.
  intros Hok Hdata Hrep. unfold fetch_ticker. change MAX_RETRIES with 20%nat.
  cbn [ticker_loop]. unfold bind at 1, client_get. rewrite Hrep. cbn [tl]. rewrite Hok.
  cbn [Z.eqb Pos.eqb]. unfold ticker_data, obind in Hdata. unfold bind, lift.
  destruct (float_field _ _ (json ok) "volume") as [v'|]; [|discriminate].
  destruct (float_field _ _ (json ok) "price") as [p'|]; [|discriminate].
  injection Hdata as -> ->. reflexivity.
Qed.

Lemma fetch_ticker_refused (product_id : string) (bad : ClientResponse)
    (rest : list reply) w :
  status bad <> 200%Z ->
  status bad <> 429%Z ->
  replies w = Reply bad :: rest ->
  fetch_ticker' product_id w
  = (Raise (IOError ("Error fetching ticker for " +:+ product_id +:+ " on Coinbase Pro.")),
     Build_World rest (now w) (trace w ++ [EvGet (ticker_url product_id)]) (output w)).
Proof.
  intros H200 H429 Hrep. unfold fetch_ticker. change MAX_RETRIES with 20%nat.
  cbn [ticker_loop]. unfold bind, client_get. rewrite Hrep. cbn [tl].
  apply Z.eqb_neq in H200, H429. rewrite H200, H429. reflexivity.
Qed.

Lemma fetch_tickers_answered (tickers : list Ticker) (oks : list ClientResponse) :
  Forall2 ticker_answered' tickers oks ->
  forall rest w,
    replies w = map Reply oks ++ rest ->
    exists w',
      fetch_tickers' (map product_row tickers) w = (Return tickers, w')
      /\ replies w' = rest
      /\ output w' = output w
      /\ requests (trace w') = requests (trace w) ++ map ticker_url (map Index tickers).
Proof.
  induction 1 as [|t ok tickers oks [Hok Hdata] _ IH]; intros rest w Hrep.
  - exists w. cbn in *. rewrite app_nil_r. auto.
  - cbn [map app product_row fetch_tickers] in *. unfold bind at 1.
    rewrite (fetch_ticker_first_try _ ok _ _ _ w Hok Hdata Hrep). cbv beta iota zeta.
    unfold bind.
    match goal with
    | |- context [fetch_tickers _ _ _ ?w0] =>
        destruct (IH rest w0 eq_refl) as (w' & Hrun & Hrest & Hout & Hreq)
    end.
    exists w'. rewrite Hrun. cbn [fst snd replies output trace] in *.
    destruct t. split; [reflexivity|]. split; [exact Hrest|]. split; [exact Hout|].
    rewrite Hreq, !requests_app, <- !app_assoc. reflexivity.
Qed.

Lemma fetch_tickers_refused (pre : list Ticker) (oks : list ClientResponse)
    (product_id : string) (cols : gmap string JSON)
    (post : list (string * gmap string JSON)) (bad : ClientResponse) :
  Forall2 ticker_answered' pre oks ->
  status bad <> 200%Z ->
  status bad <> 429%Z ->
  forall rest w,
    replies w = map Reply oks ++ Reply bad :: rest ->
    exists w',
      fetch_tickers' (map product_row pre ++ (product_id, cols) :: post) w
      = (Raise (IOError ("Error fetching ticker for " +:+ product_id +:+ " on Coinbase Pro.")),
         w')
      /\ replies w' = rest
      /\ output w' = output w
      /\ requests (trace w')
         = requests (trace w) ++ map ticker_url (map Index pre ++ [product_id]).
Proof.
  intros Hpre H200 H429.
  induction Hpre as [|t ok pre oks [Hok Hdata] _ IH]; intros rest w Hrep.
  - cbn [map app fetch_tickers] in *. unfold bind.
    rewrite (fetch_ticker_refused _ bad rest w H200 H429 Hrep).
    eexists. split; [reflexivity|]. cbn. rewrite requests_app. auto.
  - cbn [map app product_row fetch_tickers] in *. unfold bind at 1.
    rewrite (fetch_ticker_first_try _ ok _ _ _ w Hok Hdata Hrep). cbv beta iota zeta.
    unfold bind.
    match goal with
    | |- context [fetch_tickers _ _ _ ?w0] =>
        destruct (IH rest w0 eq_refl) as (w' & Hrun & Hrest & Hout & Hreq)
    end.
    exists w'. rewrite Hrun. cbn [fst snd replies output trace] in *.
    split; [reflexivity|]. split; [exact Hrest|]. split; [exact Hout|].
    rewrite Hreq, !requests_app, <- !app_assoc. reflexivity.
Qed.

(** The ranking of a table with distinct ids that holds the four
    reference instruments: what the world keeps of it. *)
Lemma rank_by_usd_volume_runs (all_markets : list Ticker) w :
  NoDup (map Index all_markets) ->
  Forall (fun label => label ∈ map Index all_markets) reference_pairs ->
  exists result w',
    rank_by_usd_volume all_markets w = (Return result, w')
    /\ StronglySorted usd_desc result
    /\ map ticker result ≡ₚ all_markets
    /\ replies w' = replies w
    /\ output w' = output w
    /\ requests (trace w') = requests (trace w).
Proof.
  intros Hdistinct Href. unfold reference_pairs in Href.
  repeat match goal with
         | H : Forall _ (_ :: _) |- _ => apply Forall_cons in H as [?H H]
         end.
  repeat match goal with
         | H : _ ∈ map Index all_markets |- _ =>
             apply loc_price_present in H as [? ?]
         end.
  unfold rank_by_usd_volume, bind, lift.
  repeat match goal with H : loc_price _ _ = _ |- _ => rewrite H; clear H end.
  cbn [outcome_of].
  match goal with
  | |- context [usd_volumes all_markets ?b ?e ?eu ?g w] =>
      destruct (usd_volumes_spec all_markets b e eu g w)
        as (markets & w' & Hrun & Hrep & _ & Hout & Htr & Hmap & _)
  end.
  rewrite Hrun. exists (sort_values_USDVolume_desc markets), w'.
  split; [reflexivity|]. split; [apply sort_values_sorted|].
  split; [rewrite sort_values_permutation, Hmap; reflexivity|].
  split; [exact Hrep|]. split; [exact Hout|].
  rewrite Htr, requests_app, requests_unconvertible_logs. apply app_nil_r.
Qed.

(** A refresh of the market directory that is answered throughout: the
    product list with a 200, then each product's ticker with a 200 at the
    first request.  For a product list with distinct ids that holds the
    four reference instruments the refresh returns a ranking that holds
    every listed product once, in descending order of USD volume; it has
    requested the product list and then the ticker of each product, in the
    order of the list, and nothing else; and [get_trading_pairs] of an
    instance without [symbols] hands out the ids of that ranking, in its
    order. *)
Theorem get_active_exchange_markets_ranking (products : ClientResponse)
    (tickers : list Ticker) (oks : list ClientResponse) (rest : list reply) w :
  status products = 200%Z ->
  from_records (json products) = Ok (map product_row tickers) ->
  Forall2 ticker_answered' tickers oks ->
  NoDup (map Index tickers) ->
  Forall (fun label => label ∈ map Index tickers) reference_pairs ->
  replies w = Reply products :: map Reply oks ++ rest ->
  exists result w',
    get_active_exchange_markets' w = (Return result, w')
    /\ StronglySorted usd_desc result
    /\ map ticker result ≡ₚ tickers
    /\ replies w' = rest
    /\ output w' = output w
    /\ requests (trace w')
       = requests (trace w) ++ products_url :: map ticker_url (map Index tickers)
    /\ get_trading_pairs get_active_exchange_markets' None w
       = (Return (map (fun m => Index (ticker m)) result), w').
Proof.
  intros Hstatus Hrows Hoks Hdistinct Href Hrep.
  assert (Hrun : exists result w',
             get_active_exchange_markets' w = (Return result, w')
             /\ StronglySorted usd_desc result
             /\ map ticker result ≡ₚ tickers
             /\ replies w' = rest
             /\ output w' = output w
             /\ requests (trace w')
                = requests (trace w) ++ products_url :: map ticker_url (map Index tickers)).
  { unfold get_active_exchange_markets. unfold bind at 1, client_get. rewrite Hrep.
    cbn [tl]. rewrite Hstatus. cbn [Z.eqb Pos.eqb negb]. unfold bind at 1, lift.
    rewrite Hrows. cbn [outcome_of]. unfold bind.
    match goal with
    | |- context [fetch_tickers _ _ _ ?w0] =>
        destruct (fetch_tickers_answered tickers oks Hoks rest w0 eq_refl)
          as (w1 & Hfetch & Hrest1 & Hout1 & Hreq1)
    end.
    rewrite Hfetch.
    destruct (rank_by_usd_volume_runs tickers w1 Hdistinct Href)
      as (result & w2 & Hrank & Hsorted & Hperm & Hrest2 & Hout2 & Hreq2).
    exists result, w2. rewrite Hrank. cbn [replies output trace] in *.
    split; [reflexivity|]. split; [exact Hsorted|]. split; [exact Hperm|].
    split; [congruence|]. split; [congruence|].
    rewrite Hreq2, Hreq1, requests_app, <- app_assoc. reflexivity. }
  destruct Hrun as (result & w' & Hrun & Hsorted & Hperm & Hrest & Hout & Hreq).
  exists result, w'. repeat (split; [assumption|]).
  unfold get_trading_pairs, bind. rewrite Hrun. reflexivity.
Qed.

(** What aborts a refresh of the market directory.  A product list
    answered with any status but 200 raises the error of line 63 after
    that one request, no ticker asked for.  And a ticker answered with a
    status other than 200 and 429 raises the error of line 85 out of the
    whole refresh: there is no ranking, and the products listed after it
    are never asked for. *)
Theorem get_active_exchange_markets_aborts w :
  (forall products rest,
      status products <> 200%Z ->
      replies w = Reply products :: rest ->
      get_active_exchange_markets' w
      = (Raise (IOError "Error fetching active Coinbase Pro markets."),
         Build_World rest (now w) (trace w ++ [EvGet products_url]) (output w)))
  /\ (forall products pre oks product_id cols post bad rest,
      status products = 200%Z ->
      from_records (json products) = Ok (map product_row pre ++ (product_id, cols) :: post) ->
      Forall2 ticker_answered' pre oks ->
      status bad <> 200%Z ->
      status bad <> 429%Z ->
      replies w = Reply products :: map Reply oks ++ Reply bad :: rest ->
      exists w',
        get_active_exchange_markets' w
        = (Raise (IOError ("Error fetching ticker for " +:+ product_id
                             +:+ " on Coinbase Pro.")), w')
        /\ replies w' = rest
        /\ output w' = output w
        /\ requests (trace w')
           = requests (trace w) ++ products_url :: map ticker_url (map Index pre ++ [product_id])).
Proof.
  split.
  - intros products rest Hstatus Hrep.
    unfold get_active_exchange_markets, bind, client_get. rewrite Hrep. cbn [tl].
    apply Z.eqb_neq in Hstatus. rewrite Hstatus. reflexivity.
  - intros products pre oks product_id cols post bad rest Hstatus Hrows Hoks H200 H429 Hrep.
    unfold get_active_exchange_markets. unfold bind at 1, client_get. rewrite Hrep.
    cbn [tl]. rewrite Hstatus. cbn [Z.eqb Pos.eqb negb]. unfold bind at 1, lift.
    rewrite Hrows. cbn [outcome_of]. unfold bind.
    match goal with
    | |- context [fetch_tickers _ _ _ ?w0] =>
        destruct (fetch_tickers_refused pre oks product_id cols post bad Hoks H200 H429 rest w0
                    eq_refl) as (w1 & Hfetch & Hrest1 & Hout1 & Hreq1)
    end.
    rewrite Hfetch. exists w1. cbn [replies output trace] in *.
    split; [reflexivity|]. split; [exact Hrest1|]. split; [exact Hout1|].
    rewrite Hreq1, requests_app, <- app_assoc. reflexivity.
Qed.

End DirectoryFacts.

(** ** Tracking entry builder: the entries and the pacing *)

Section TrackingEntries.
Context {OrderBookMessage : Type}.
Variable snapshot_message_from_exchange :
  JSON -> Q -> gmap string string -> result OrderBookMessage.
Variables OrderBook ActiveOrderTracker OrderBookRows : Type.
Variable CoinbaseProOrderBook : OrderBook.
Variable CoinbaseProActiveOrderTracker : ActiveOrderTracker.
Variable convert_snapshot_message_to_order_book_row :
  ActiveOrderTracker -> OrderBookMessage ->
  result (ActiveOrderTracker * (OrderBookRows * OrderBookRows)).
Variable update_id : OrderBookMessage -> result Z.
Variable apply_snapshot :
  OrderBook -> OrderBookRows -> OrderBookRows -> Z -> result OrderBook.
Variable active_exchange_markets : coroutine OrderBookMessage (list Market).
Implicit Types w : World OrderBookMessage.

Local Abbreviation Entry := (CoinbaseProOrderBookTrackerEntry OrderBook ActiveOrderTracker).
Local Abbreviation build_entry' :=
  (build_entry snapshot_message_from_exchange OrderBook ActiveOrderTracker OrderBookRows
     CoinbaseProOrderBook CoinbaseProActiveOrderTracker
     convert_snapshot_message_to_order_book_row update_id apply_snapshot).
Local Abbreviation attempt' :=
  (attempt snapshot_message_from_exchange OrderBook ActiveOrderTracker OrderBookRows
     CoinbaseProOrderBook CoinbaseProActiveOrderTracker
     convert_snapshot_message_to_order_book_row update_id apply_snapshot).
Local Abbreviation attempts' :=
  (attempts snapshot_message_from_exchange OrderBook ActiveOrderTracker OrderBookRows
     CoinbaseProOrderBook CoinbaseProActiveOrderTracker
     convert_snapshot_message_to_order_book_row update_id apply_snapshot).
Local Abbreviation tracking_loop' :=
  (tracking_loop snapshot_message_from_exchange OrderBook ActiveOrderTracker OrderBookRows
     CoinbaseProOrderBook CoinbaseProActiveOrderTracker
     convert_snapshot_message_to_order_book_row update_id apply_snapshot).
Local Abbreviation get_tracking_pairs' :=
  (get_tracking_pairs active_exchange_markets
     snapshot_message_from_exchange OrderBook ActiveOrderTracker OrderBookRows
     CoinbaseProOrderBook CoinbaseProActiveOrderTracker
     convert_snapshot_message_to_order_book_row update_id apply_snapshot).

(** The entry of lines 162-167 carries the instrument it was built for and
    the time its snapshot was answered. *)
Lemma build_entry_fields (trading_pair : string) (snapshot : JSON) (t : Q) (entry : Entry) :
  build_entry' trading_pair snapshot t = Ok entry ->
  symbol entry = trading_pair /\ timestamp entry = t.
Proof.
  unfold build_entry, obind.
  destruct (tracking_snapshot_msg _ _ _ _) as [snapshot_msg|]; [|discriminate].
  destruct (convert_snapshot_message_to_order_book_row _ _) as [[tracker [bids asks]]|];
    [|discriminate].
  destruct (update_id _) as [uid|]; [|discriminate].
  destruct (apply_snapshot _ _ _ _) as [book|]; [|discriminate].
  intros [= <-]. split; reflexivity.
Qed.

Lemma attempt_fields (trading_pair : string) (answer : reply) (t : Q) (entry : Entry) :
  attempt' trading_pair answer t = Ok entry ->
  symbol entry = trading_pair /\ timestamp entry = t.
Proof.
  unfold attempt. destruct answer as [response|e]; [|discriminate].
  destruct (status response =? 200)%Z; [apply build_entry_fields | discriminate].
Qed.

(** One instrument, its pauses: 0.6 s after a success, none after a
    failure. *)
Lemma tracking_loop_step_sleeps (index number_of_pairs : nat) (trading_pair : string)
    (rest : list string) (retval : gmap string Entry) (answer : reply) (answers : list reply) w :
  replies w = answer :: answers ->
  attempt' trading_pair answer (now w) <> Error CancelledError ->
  exists w1,
    tracking_loop' index number_of_pairs (trading_pair :: rest) retval w
    = tracking_loop' (S index) number_of_pairs rest
        (match attempt' trading_pair answer (now w) with
         | Ok entry => <[ trading_pair := entry ]> retval
         | Error _ => retval
         end) w1
    /\ replies w1 = answers
    /\ now w1 = match attempt' trading_pair answer (now w) with
                | Ok _ => (now w + (6 # 10))%Q
                | Error _ => now w
                end
    /\ sleeps (trace w1)
       = sleeps (trace w) ++ match attempt' trading_pair answer (now w) with
                             | Ok _ => [(6 # 10)%Q]
                             | Error _ => []
                             end.
Proof.
  intros Hrep Hnc. cbn [tracking_loop].
  assert (Hreq : forall t url, sleeps (t ++ [EvGet url]) = sleeps t)
    by (intros; rewrite sleeps_app; apply app_nil_r).
  assert (Hlog : forall t s, sleeps (t ++ [EvLogError s]) = sleeps t)
    by (intros; rewrite sleeps_app; apply app_nil_r).
  assert (Hinfo : forall t s, sleeps (t ++ [EvLogInfo s]) = sleeps t)
    by (intros; rewrite sleeps_app; apply app_nil_r).
  assert (Hsl : forall t d, sleeps (t ++ [EvSleep d]) = sleeps t ++ [d])
    by (intros; rewrite sleeps_app; reflexivity).
  unfold attempt in *.
  run_coroutine. rewrite Hrep. run_coroutine.
  destruct answer as [response|e]; run_coroutine.
  - destruct (status response =? 200)%Z; run_coroutine.
    + destruct (build_entry' trading_pair (json response) (now w)) as [entry|e];
        run_coroutine.
      * eexists. split; [reflexivity|]. cbn [replies now output trace].
        rewrite Hsl, Hinfo, Hreq. repeat split; reflexivity.
      * destruct e; try contradiction; run_coroutine;
          (eexists; split; [reflexivity|]); cbn [replies now output trace];
          rewrite Hlog, Hreq, app_nil_r; repeat split; reflexivity.
    + eexists. split; [reflexivity|]. cbn [replies now output trace].
      rewrite Hlog, Hreq, app_nil_r. repeat split; reflexivity.
  - destruct e; try contradiction; run_coroutine;
      (eexists; split; [reflexivity|]); cbn [replies now output trace];
      rewrite Hlog, Hreq, app_nil_r; repeat split; reflexivity.
Qed.

Lemma tracking_loop_entries (trading_pairs : list string) :
  forall (index number_of_pairs : nat) (retval : gmap string Entry) w,
    (length trading_pairs <= length (replies w))%nat ->
    uncancelled (attempts' trading_pairs (replies w) (now w)) ->
    exists retval' w',
      tracking_loop' index number_of_pairs trading_pairs retval w = (Return retval', w')
      /\ (forall trading_pair entry,
            retval' !! trading_pair = Some entry ->
            retval !! trading_pair = Some entry
            \/ (symbol entry = trading_pair
                /\ trading_pair ∈ trading_pairs
                /\ (now w <= timestamp entry)%Q
                /\ (timestamp entry <= now w')%Q))
      /\ (now w <= now w')%Q
      /\ sleeps (trace w')
         = sleeps (trace w)
           ++ repeat (6 # 10)%Q
                (length (succeeded (attempts' trading_pairs (replies w) (now w)))).
Proof.
  induction trading_pairs as [|trading_pair rest IH];
    intros index number_of_pairs retval w Hlen Hnc.
  - exists retval, w. cbn. rewrite app_nil_r.
    repeat split; auto. apply Qle_refl.
  - destruct (replies w) as [|answer answers] eqn:Hrep; [cbn in Hlen; lia|].
    cbn [attempts] in *. apply Forall_cons in Hnc as [Hnc1 Hnc].
    destruct (tracking_loop_step_sleeps index number_of_pairs trading_pair rest retval
                answer answers w Hrep Hnc1)
      as (w1 & Hrun & Hrep1 & Hnow1 & Hsl1).
    rewrite Hrun. rewrite <- Hrep1, <- Hnow1 in Hnc |- *.
    set (retval1 := match attempt' trading_pair answer (now w) with
                    | Ok entry => <[ trading_pair := entry ]> retval
                    | Error _ => retval
                    end).
    destruct (IH (S index) number_of_pairs retval1 w1) as
      (retval' & w' & Hrun' & Hentries & Hclock & Hsl);
      [rewrite Hrep1; cbn in Hlen; lia | exact Hnc |].
    assert (Hstep : (now w <= now w1)%Q).
    { rewrite Hnow1. destruct (attempt' trading_pair answer (now w)); lra. }
    exists retval', w'. split; [exact Hrun'|].
    split; [|split].
    + intros tp entry Hget. destruct (Hentries tp entry Hget) as [Hold|(Hs & Hin & Hlo & Hhi)].
      * unfold retval1 in Hold.
        destruct (attempt' trading_pair answer (now w)) as [entry1|e] eqn:Hatt; [|auto].
        destruct (decide (tp = trading_pair)) as [->|Hne].
        -- rewrite lookup_insert_eq in Hold. injection Hold as <-.
           apply attempt_fields in Hatt as [Hs Ht]. right.
           split; [exact Hs|]. split; [apply elem_of_cons; auto|].
           rewrite Ht. split; [apply Qle_refl | lra].
        -- rewrite lookup_insert_ne in Hold by congruence. auto.
      * right. split; [exact Hs|]. split; [apply elem_of_cons; auto|].
        split; [lra | exact Hhi].
    + lra.
    + rewrite Hsl, Hsl1, <- app_assoc. unfold succeeded at 2. cbn [omap].
      destruct (attempt' trading_pair answer (now w)); reflexivity.
Qed.

(** The mapping the builder returns, the exchange holding an answer for
    each instrument and no cancellation arriving: every entry is stored
    under the instrument it carries as its symbol, that instrument is one
    of the list, and the entry's timestamp is a time of the batch. *)
Theorem get_tracking_pairs_entries (trading_pairs : list string) w :
  (length trading_pairs <= length (replies w))%nat ->
  uncancelled (attempts' trading_pairs (replies w) (now w)) ->
  exists retval w',
    get_tracking_pairs' (Some trading_pairs) w = (Return retval, w')
    /\ forall trading_pair entry,
         retval !! trading_pair = Some entry ->
         symbol entry = trading_pair
         /\ trading_pair ∈ trading_pairs
         /\ (now w <= timestamp entry)%Q
         /\ (timestamp entry <= now w')%Q.
Proof.
  intros Hlen Hnc.
  destruct (tracking_loop_entries trading_pairs 0 (length trading_pairs) ∅ w Hlen Hnc)
    as (retval & w' & Hrun & Hentries & _ & _).
  exists retval, w'. split; [exact Hrun|].
  intros tp entry Hget. destruct (Hentries tp entry Hget) as [Hold|H]; [|exact H].
  rewrite lookup_empty in Hold. discriminate.
Qed.

(** The builder's pacing, under the same conditions: it pauses 0.6 s after
    each instrument whose order book it initialized, and not at all after a
    failure. *)
Theorem get_tracking_pairs_pacing (trading_pairs : list string) w :
  (length trading_pairs <= length (replies w))%nat ->
  uncancelled (attempts' trading_pairs (replies w) (now w)) ->
  sleeps (trace (snd (get_tracking_pairs' (Some trading_pairs) w)))
  = sleeps (trace w)
    ++ repeat (6 # 10)%Q (length (succeeded (attempts' trading_pairs (replies w) (now w)))).
Proof.
  intros Hlen Hnc.
  destruct (tracking_loop_entries trading_pairs 0 (length trading_pairs) ∅ w Hlen Hnc)
    as (retval & w' & Hrun & _ & _ & Hsl).
  unfold get_tracking_pairs, get_trading_pairs, bind, ret. rewrite Hrun. exact Hsl.
Qed.

End TrackingEntries.

(** ** Periodic snapshot refresher *)

Lemma until_next_hour_bounds (t : Q) :
  (0 < until_next_hour t)%Q
  /\ (until_next_hour t <= 3600)%Q
  /\ (t + until_next_hour t == inject_Z (3600 * (Qfloor (t / 3600) + 1)))%Q.
Proof.
  unfold until_next_hour.
  pose proof (Qfloor_le (t / 3600)) as Hlo. pose proof (Qlt_floor (t / 3600)) as Hhi.
  rewrite !inject_Z_mult, inject_Z_plus. rewrite inject_Z_plus in Hhi.
  assert (Ht : (t == (t / 3600) * 3600)%Q) by field.
  set (f := inject_Z (Qfloor (t / 3600))) in *. set (x := (t / 3600)%Q) in *.
  change (inject_Z 3600) with 3600%Q. change (inject_Z 1) with 1%Q in *.
  repeat split; lra.
Qed.

Section RefresherFacts.
Context {OrderBookMessage : Type}.
Variable active_exchange_markets : coroutine OrderBookMessage (list Market).
Variable snapshot_message_from_exchange :
  JSON -> Q -> gmap string string -> result OrderBookMessage.
Implicit Types w : World OrderBookMessage.

Local Abbreviation refresh' := (refresh snapshot_message_from_exchange).
Local Abbreviation refreshes' := (refreshes snapshot_message_from_exchange).
Local Abbreviation snapshot_pass' := (snapshot_pass snapshot_message_from_exchange).
Local Abbreviation get_trading_pairs' := (get_trading_pairs active_exchange_markets).
Local Abbreviation listen_for_order_book_snapshots' :=
  (listen_for_order_book_snapshots active_exchange_markets snapshot_message_from_exchange).

(** One instrument: the [try] block of lines 240-256. *)
Lemma snapshot_pass_step (trading_pair : string) (rest : list string)
    (answer : reply) (answers : list reply) w :
  replies w = answer :: answers ->
  refresh' trading_pair answer (now w) <> Error CancelledError ->
  exists w1,
    snapshot_pass' (trading_pair :: rest) w = snapshot_pass' rest w1
    /\ replies w1 = answers
    /\ now w1 = (now w + 5)%Q
    /\ output w1 = output w ++ match refresh' trading_pair answer (now w) with
                               | Ok msg => [msg]
                               | Error _ => []
                               end
    /\ requests (trace w1) = requests (trace w) ++ [snapshot_url trading_pair]
    /\ sleeps (trace w1) = sleeps (trace w) ++ [5%Q]
    /\ (forall e, refresh' trading_pair answer (now w) = Error e ->
          unexpected_error_log ∈ trace w1)
    /\ (forall ev, ev ∈ trace w -> ev ∈ trace w1).
Proof.
  intros Hrep Hnc. cbn [snapshot_pass].
  assert (Hreq : forall t url, requests (t ++ [EvGet url]) = requests t ++ [url])
    by (intros; rewrite requests_app; reflexivity).
  assert (Hlog : forall t s, requests (t ++ [EvLogError s]) = requests t)
    by (intros; rewrite requests_app; apply app_nil_r).
  assert (Hdbg : forall t s, requests (t ++ [EvLogDebug s]) = requests t)
    by (intros; rewrite requests_app; apply app_nil_r).
  assert (Hsl : forall t d, requests (t ++ [EvSleep d]) = requests t)
    by (intros; rewrite requests_app; apply app_nil_r).
  assert (Hreq' : forall t url, sleeps (t ++ [EvGet url]) = sleeps t)
    by (intros; rewrite sleeps_app; apply app_nil_r).
  assert (Hlog' : forall t s, sleeps (t ++ [EvLogError s]) = sleeps t)
    by (intros; rewrite sleeps_app; apply app_nil_r).
  assert (Hdbg' : forall t s, sleeps (t ++ [EvLogDebug s]) = sleeps t)
    by (intros; rewrite sleeps_app; apply app_nil_r).
  assert (Hsl' : forall t d, sleeps (t ++ [EvSleep d]) = sleeps t ++ [d])
    by (intros; rewrite sleeps_app; reflexivity).
  unfold unexpected_error_log, snapshot_url, refresh in *.
  run_coroutine. rewrite Hrep. run_coroutine.
  destruct answer as [response|e]; run_coroutine.
  - destruct (status response =? 200)%Z; run_coroutine.
    + destruct (refresher_snapshot_msg _ trading_pair (json response) (now w)) as [msg|e];
        run_coroutine.
      * eexists. split; [reflexivity|]. cbn [replies now output trace].
        rewrite Hsl, Hdbg, Hreq, Hsl', Hdbg', Hreq'.
        repeat split; try reflexivity; [discriminate|].
        intros ev Hev. rewrite !elem_of_app. auto.
      * destruct e; try contradiction; run_coroutine;
          (eexists; split; [reflexivity|]); cbn [replies now output trace];
          rewrite Hsl, Hlog, Hreq, Hsl', Hlog', Hreq', app_nil_r;
          (repeat split; try reflexivity);
          intros; rewrite !elem_of_app, ?list_elem_of_singleton; auto.
    + eexists. split; [reflexivity|]. cbn [replies now output trace].
      rewrite Hsl, Hlog, Hreq, Hsl', Hlog', Hreq', app_nil_r.
      repeat split; try reflexivity;
        intros; rewrite !elem_of_app, ?list_elem_of_singleton; auto.
  - destruct e; try contradiction; run_coroutine;
      (eexists; split; [reflexivity|]); cbn [replies now output trace];
      rewrite Hsl, Hlog, Hreq, Hsl', Hlog', Hreq', app_nil_r;
      (repeat split; try reflexivity);
      intros; rewrite !elem_of_app, ?list_elem_of_singleton; auto.
Qed.

(** One pass of the refresher over the list [trading_pairs], the exchange
    holding an answer for each and no cancellation arriving.  The pass
    returns; the queue has grown by the snapshot messages of the
    instruments whose refresh succeeded, in the order of the list; every
    instrument was requested, in order, whatever failed before it; each
    failure was logged; and the pass paused 5 s after every instrument,
    after a failure as after a success. *)
Theorem snapshot_pass_enqueues (trading_pairs : list string) :
  forall w,
    (length trading_pairs <= length (replies w))%nat ->
    undisturbed (refreshes' trading_pairs (replies w) (now w)) ->
    exists w',
      snapshot_pass' trading_pairs w = (Return tt, w')
      /\ output w'
         = output w ++ snapshot_messages (refreshes' trading_pairs (replies w) (now w))
      /\ requests (trace w') = requests (trace w) ++ map snapshot_url trading_pairs
      /\ sleeps (trace w') = sleeps (trace w) ++ repeat 5%Q (length trading_pairs)
      /\ replies w' = drop (length trading_pairs) (replies w)
      /\ (Exists (fun '(_, r) => exists e, r = Error e)
            (refreshes' trading_pairs (replies w) (now w)) ->
          unexpected_error_log ∈ trace w')
      /\ (forall ev, ev ∈ trace w -> ev ∈ trace w').
Proof.
  induction trading_pairs as [|trading_pair rest IH]; intros w Hlen Hnc.
  - exists w. cbn. rewrite !app_nil_r. repeat split; auto.
    intros H. inversion H.
  - destruct (replies w) as [|answer answers] eqn:Hrep; [cbn in Hlen; lia|].
    cbn [refreshes] in *. apply Forall_cons in Hnc as [Hnc1 Hnc].
    destruct (snapshot_pass_step trading_pair rest answer answers w Hrep Hnc1)
      as (w1 & Hrun & Hrep1 & Hnow1 & Hout1 & Hreq1 & Hsl1 & Hlog1 & Hmono1).
    rewrite Hrun. rewrite <- Hrep1, <- Hnow1 in Hnc |- *.
    destruct (IH w1) as (w' & Hrun' & Hout & Hreq & Hsl & Hrest & Hlog & Hmono);
      [rewrite Hrep1; cbn in Hlen; lia | exact Hnc |].
    exists w'. split; [exact Hrun'|].
    split; [|split; [|split; [|split; [|split]]]].
    + rewrite Hout, Hout1, <- app_assoc. unfold snapshot_messages at 2. cbn [omap].
      destruct (refresh' trading_pair answer (now w)); reflexivity.
    + rewrite Hreq, Hreq1, <- app_assoc. reflexivity.
    + rewrite Hsl, Hsl1, <- app_assoc. reflexivity.
    + rewrite Hrest, Hrep1. reflexivity.
    + intros [[e He]|Hex]%Exists_cons.
      * apply Hmono. eapply Hlog1. exact He.
      * apply Hlog, Hex.
    + intros ev Hev. apply Hmono, Hmono1, Hev.
Qed.

(** After a pass that returned, the refresher sleeps until the next full
    hour: the pause is positive, at most an hour, and ends on a multiple of
    3600 s; the next pass starts from there. *)
Theorem refresher_sleeps_until_next_hour (passes : nat) (_symbols : option (list string))
    (trading_pairs : list string) w w0 w1 :
  get_trading_pairs' _symbols w = (Return trading_pairs, w0) ->
  snapshot_pass' trading_pairs w0 = (Return tt, w1) ->
  listen_for_order_book_snapshots' (S passes) _symbols w
  = listen_for_order_book_snapshots' passes _symbols (slept (until_next_hour (now w1)) w1)
  /\ (0 < until_next_hour (now w1))%Q
  /\ (until_next_hour (now w1) <= 3600)%Q
  /\ (now (slept (until_next_hour (now w1)) w1)
      == inject_Z (3600 * (Qfloor (now w1 / 3600) + 1)))%Q.
Proof.
  intros Hpairs Hpass.
  destruct (until_next_hour_bounds (now w1)) as (Hpos & Hle & Hhour).
  split; [|split; [exact Hpos|split; [exact Hle|exact Hhour]]].
  cbn [listen_for_order_book_snapshots].
  unfold bind at 1, try_except_Exception, bind at 1. rewrite Hpairs.
  unfold bind at 1. rewrite Hpass. reflexivity.
Qed.

(** What stops the refresher, and what does not.  However long it is run
    and whatever happens, it never returns, and the only exception it
    raises is the cancellation.  A failure of the instrument discovery is
    logged and followed by a 5 s pause and the next pass.  A cancellation
    that arrives while a snapshot is being fetched leaves the task. *)
Theorem refresher_halts_only_when_cancelled (_symbols : option (list string)) :
  (forall passes w,
      match fst (listen_for_order_book_snapshots' passes _symbols w) with
      | Return _ => False
      | Raise e => e = CancelledError
      | Unfinished => True
      end)
  /\ (forall passes w e w0,
      get_trading_pairs' _symbols w = (Raise e, w0) ->
      e <> CancelledError ->
      listen_for_order_book_snapshots' (S passes) _symbols w
      = listen_for_order_book_snapshots' passes _symbols
          (slept 5 (Build_World (replies w0) (now w0)
                      (trace w0 ++ [unexpected_error_log]) (output w0))))
  /\ (forall passes w trading_pair rest w0 answers,
      get_trading_pairs' _symbols w = (Return (trading_pair :: rest), w0) ->
      replies w0 = Fault CancelledError :: answers ->
      fst (listen_for_order_book_snapshots' (S passes) _symbols w) = Raise CancelledError).
Proof.
  split; [|split].
  - induction passes as [|passes IH]; intros w; [exact I|].
    cbn [listen_for_order_book_snapshots]. unfold bind at 1, try_except_Exception.
    match goal with
    | |- context [match ?body w with _ => _ end] => destruct (body w) as [[[]|e|] w1]
    end.
    + apply IH.
    + destruct e; cbn [is_Exception]; try reflexivity; run_coroutine; apply IH.
    + exact I.
  - intros passes w e w0 Hpairs Hne.
    cbn [listen_for_order_book_snapshots].
    unfold bind at 1, try_except_Exception, bind at 1. rewrite Hpairs.
    destruct e; try contradiction; reflexivity.
  - intros passes w trading_pair rest w0 answers Hpairs Hrep.
    cbn [listen_for_order_book_snapshots].
    unfold bind at 1, try_except_Exception, bind at 1. rewrite Hpairs.
    cbn [snapshot_pass]. run_coroutine. rewrite Hrep. reflexivity.
Qed.

End RefresherFacts.

(** ** The output queue only grows *)

Create HintDb grows.

Section OutputFacts.
Context {OBM : Type}.
Implicit Types w : World OBM.

Lemma output_grows_same {A} (m : coroutine OBM A) :
  (forall w, output (snd (m w)) = output w) -> output_grows m.
Proof. intros H w. rewrite H. reflexivity. Qed.

Lemma output_grows_ret {A} (a : A) : output_grows (OBM := OBM) (ret a).
Proof. apply output_grows_same. reflexivity. Qed.

Lemma output_grows_raise {A} (e : exn) : output_grows (OBM := OBM) (A := A) (raise e).
Proof. apply output_grows_same. reflexivity. Qed.

Lemma output_grows_lift {A} (r : result A) : output_grows (OBM := OBM) (lift r).
Proof. apply output_grows_same. reflexivity. Qed.

Lemma output_grows_unfinished {A} : output_grows (OBM := OBM) (A := A) unfinished.
Proof. apply output_grows_same. reflexivity. Qed.

Lemma output_grows_emit (ev : event) : output_grows (OBM := OBM) (emit ev).
Proof. apply output_grows_same. reflexivity. Qed.

Lemma output_grows_elapse (seconds : Q) : output_grows (OBM := OBM) (elapse seconds).
Proof. apply output_grows_same. reflexivity. Qed.

Lemma output_grows_sleep (seconds : Q) : output_grows (OBM := OBM) (sleep seconds).
Proof. apply output_grows_same. reflexivity. Qed.

Lemma output_grows_time : output_grows (OBM := OBM) time.
Proof. apply output_grows_same. reflexivity. Qed.

Lemma output_grows_put_nowait (msg : OBM) : output_grows (put_nowait msg).
Proof. intros w. cbn. apply prefix_app_r. reflexivity. Qed.

Lemma output_grows_client_get (url : string) : output_grows (OBM := OBM) (client_get url).
Proof.
  apply output_grows_same. intros w. unfold client_get.
  destruct (replies w) as [|[r|e] answers]; reflexivity.
Qed.

Lemma output_grows_bind {A B} (m : coroutine OBM A) (k : A -> coroutine OBM B) :
  output_grows m -> (forall a, output_grows (k a)) -> output_grows (bind m k).
Proof.
  intros Hm Hk w. unfold bind. specialize (Hm w).
  destruct (m w) as [[a|e|] w1]; cbn [snd] in *; [|exact Hm|exact Hm].
  etrans; [exact Hm | apply Hk].
Qed.

Lemma output_grows_try_except_Exception {A} (m h : coroutine OBM A) :
  output_grows m -> output_grows h -> output_grows (try_except_Exception m h).
Proof.
  intros Hm Hh w. unfold try_except_Exception. specialize (Hm w).
  destruct (m w) as [[a|e|] w1]; cbn [snd] in *; [exact Hm| |exact Hm].
  destruct (is_Exception e); [|exact Hm].
  etrans; [exact Hm | apply Hh].
Qed.

Lemma output_grows_try_except {A} (m : coroutine OBM A)
    (handler : exn -> option (coroutine OBM A)) :
  output_grows m ->
  (forall e h, handler e = Some h -> output_grows h) ->
  output_grows (try_except m handler).
Proof.
  intros Hm Hh w. unfold try_except. specialize (Hm w).
  destruct (m w) as [[a|e|] w1]; cbn [snd] in *; [exact Hm| |exact Hm].
  destruct (handler e) as [h|] eqn:He; [|exact Hm].
  etrans; [exact Hm | exact (Hh e h He w1)].
Qed.

Lemma output_grows_await {A} (aw : awaited A) : output_grows (OBM := OBM) (await aw).
Proof. apply output_grows_same. intros w. destruct aw; reflexivity. Qed.

Lemma output_grows_wait_for {A} (aw : awaited A) (timeout : Q) :
  output_grows (OBM := OBM) (wait_for aw timeout).
Proof.
  apply output_grows_same. intros w. unfold wait_for.
  destruct aw as [l a|l e|]; [destruct (Qle_bool l timeout)..|]; reflexivity.
Qed.

Lemma output_grows_async_with_ws {A} (body : coroutine OBM A) :
  output_grows body -> output_grows (async_with_ws body).
Proof.
  intros Hb w. unfold async_with_ws. specialize (Hb w).
  destruct (body w) as [[a|e|] w1]; exact Hb.
Qed.

End OutputFacts.

#[local] Hint Resolve output_grows_ret output_grows_raise output_grows_lift
  output_grows_unfinished output_grows_emit output_grows_elapse output_grows_sleep
  output_grows_time output_grows_put_nowait output_grows_client_get output_grows_bind
  output_grows_try_except_Exception output_grows_await output_grows_wait_for
  output_grows_async_with_ws : grows.
#[local] Hint Extern 1 (output_grows (if ?b then _ else _)) => destruct b : grows.
#[local] Hint Extern 1 (output_grows (match ?x with _ => _ end)) => destruct x : grows.

Section OutputQueue.
Context {OrderBookMessage : Type}.
Variable float_of_str : string -> result float.
Variable float_of_int : Z -> result float.
Variable from_records : JSON -> result (list (string * gmap string JSON)).
Variable active_exchange_markets : coroutine OrderBookMessage (list Market).
Variable snapshot_message_from_exchange :
  JSON -> Q -> gmap string string -> result OrderBookMessage.
Variable diff_message_from_exchange : JSON -> result OrderBookMessage.
Implicit Types w : World OrderBookMessage.

Lemma output_grows_get_snapshot (trading_pair : string) :
  output_grows (OBM := OrderBookMessage) (get_snapshot trading_pair).
Proof. unfold get_snapshot. auto 10 with grows. Qed.

Lemma output_grows_ticker_loop (product_id : string) :
  forall fuel retry_counter,
    output_grows (OBM := OrderBookMessage)
      (ticker_loop float_of_str float_of_int fuel product_id retry_counter).
Proof.
  induction fuel as [|fuel IH]; intros c; cbn [ticker_loop]; auto 10 with grows.
Qed.

Lemma output_grows_fetch_tickers (rows : list (string * gmap string JSON)) :
  output_grows (OBM := OrderBookMessage) (fetch_tickers float_of_str float_of_int rows).
Proof.
  induction rows as [|[product_id cols] rows IH]; cbn [fetch_tickers]; [auto with grows|].
  apply output_grows_bind; [apply output_grows_ticker_loop|]. auto 10 with grows.
Qed.

Lemma output_grows_usd_volumes (rows : list Ticker) (b e eu g : float) :
  output_grows (OBM := OrderBookMessage) (usd_volumes rows b e eu g).
Proof.
  induction rows as [|row rows IH]; cbn [usd_volumes]; [auto with grows|].
  apply output_grows_bind; [unfold usd_volume_of; auto 10 with grows|].
  auto 10 with grows.
Qed.

Lemma output_grows_get_active_exchange_markets :
  output_grows (OBM := OrderBookMessage)
    (get_active_exchange_markets float_of_str float_of_int from_records).
Proof.
  unfold get_active_exchange_markets.
  apply output_grows_bind; [auto with grows|]. intros response.
  destruct (negb _); [auto with grows|].
  apply output_grows_bind; [auto with grows|]. intros rows.
  apply output_grows_bind; [apply output_grows_fetch_tickers|]. intros all_markets.
  unfold rank_by_usd_volume.
  do 4 (apply output_grows_bind; [auto with grows|]; intro).
  apply output_grows_bind; [apply output_grows_usd_volumes|]. auto with grows.
Qed.

Lemma output_grows_get_trading_pairs (_symbols : option (list string)) :
  output_grows active_exchange_markets ->
  output_grows (get_trading_pairs active_exchange_markets _symbols).
Proof. intros H. unfold get_trading_pairs. auto 10 with grows. Qed.

Lemma output_grows_on_message (raw_msg : frame) :
  output_grows (on_message diff_message_from_exchange raw_msg).
Proof.
  unfold on_message. apply output_grows_bind; [auto with grows|]. intros msg.
  destruct msg; auto 20 with grows.
Qed.

Lemma output_grows_inner_messages (it : iteration) :
  output_grows (OBM := OrderBookMessage) (_inner_messages it).
Proof.
  unfold _inner_messages, inner_turn, ws_close.
  apply output_grows_try_except; [apply output_grows_try_except|].
  - auto 10 with grows.
  - intros e h He. destruct e; inversion He; subst; auto 10 with grows.
  - intros e h He. destruct e; inversion He; subst; auto 10 with grows.
Qed.

Lemma output_grows_message_loop (turns : list iteration) :
  output_grows (message_loop diff_message_from_exchange turns).
Proof.
  induction turns as [|it turns IH]; cbn [message_loop]; [auto with grows|].
  apply output_grows_bind; [apply output_grows_inner_messages|].
  intros [raw_msg| |]; auto with grows.
  apply output_grows_bind; [apply output_grows_on_message | auto].
Qed.

Lemma output_grows_snapshot_pass (trading_pairs : list string) :
  output_grows (snapshot_pass snapshot_message_from_exchange trading_pairs).
Proof.
  induction trading_pairs as [|trading_pair rest IH]; cbn [snapshot_pass];
    [auto with grows|].
  pose proof (output_grows_get_snapshot trading_pair).
  auto 20 with grows.
Qed.

Section WithOrderBooks.
Variables OrderBook ActiveOrderTracker OrderBookRows : Type.
Variable CoinbaseProOrderBook : OrderBook.
Variable CoinbaseProActiveOrderTracker : ActiveOrderTracker.
Variable convert_snapshot_message_to_order_book_row :
  ActiveOrderTracker -> OrderBookMessage ->
  result (ActiveOrderTracker * (OrderBookRows * OrderBookRows)).
Variable update_id : OrderBookMessage -> result Z.
Variable apply_snapshot :
  OrderBook -> OrderBookRows -> OrderBookRows -> Z -> result OrderBook.

Lemma output_grows_tracking_loop (trading_pairs : list string) :
  forall index number_of_pairs retval,
    output_grows
      (tracking_loop snapshot_message_from_exchange OrderBook ActiveOrderTracker
         OrderBookRows CoinbaseProOrderBook CoinbaseProActiveOrderTracker
         convert_snapshot_message_to_order_book_row update_id apply_snapshot
         index number_of_pairs trading_pairs retval).
Proof.
  induction trading_pairs as [|trading_pair rest IH]; intros index number_of_pairs retval;
    cbn [tracking_loop]; [auto with grows|].
  pose proof (output_grows_get_snapshot trading_pair).
  auto 20 with grows.
Qed.

(** None of the three tasks ever drops or reorders what is on the output
    queue, provided the market discovery they call does not: whatever the
    exchange and the peer do, and whether the task stops, raises or is
    still running, the queue it leaves starts with the queue it found.
    The diff listener and the snapshot refresher only append to it; the
    tracking entry builder is the third. *)
Theorem output_queue_only_grows (_symbols : option (list string)) :
  output_grows active_exchange_markets ->
  (forall cycles,
      output_grows (listen_for_order_book_diffs active_exchange_markets
                      diff_message_from_exchange _symbols cycles))
  /\ (forall passes,
      output_grows (listen_for_order_book_snapshots active_exchange_markets
                      snapshot_message_from_exchange passes _symbols))
  /\ output_grows
       (get_tracking_pairs active_exchange_markets snapshot_message_from_exchange
          OrderBook ActiveOrderTracker OrderBookRows CoinbaseProOrderBook
          CoinbaseProActiveOrderTracker convert_snapshot_message_to_order_book_row
          update_id apply_snapshot _symbols).
Proof.
  intros Hdiscovery.
  pose proof (output_grows_get_trading_pairs _symbols Hdiscovery) as Hpairs.
  split; [|split].
  - induction cycles as [|c cycles IH]; cbn [listen_for_order_book_diffs];
      [auto with grows|].
    apply output_grows_bind; [|auto].
    unfold listen_cycle, session, subscribe, cooldown.
    apply output_grows_try_except.
    + pose proof (output_grows_message_loop (turns c)). auto 20 with grows.
    + intros e h He. destruct e; inversion He; subst; auto 10 with grows.
  - induction passes as [|passes IH]; cbn [listen_for_order_book_snapshots];
      [auto with grows|].
    apply output_grows_bind; [|auto].
    apply output_grows_try_except_Exception; [|auto 10 with grows].
    apply output_grows_bind; [exact Hpairs|]. intros trading_pairs.
    apply output_grows_bind; [apply output_grows_snapshot_pass|]. auto 10 with grows.
  - unfold get_tracking_pairs.
    apply output_grows_bind; [exact Hpairs|]. intros trading_pairs.
    apply output_grows_tracking_loop.
Qed.

End WithOrderBooks.

End OutputQueue.

(** ** Streaming diff listener: order of delivery, bounded waits, the socket *)

Section SessionFacts.
Context {OrderBookMessage : Type}.
Variable active_exchange_markets : coroutine OrderBookMessage (list Market).
Variable diff_message_from_exchange : JSON -> result OrderBookMessage.
Implicit Types w : World OrderBookMessage.

Local Abbreviation on_message' := (on_message diff_message_from_exchange).
Local Abbreviation message_loop' := (message_loop diff_message_from_exchange).
Local Abbreviation delivers' := (delivers diff_message_from_exchange).
Local Abbreviation get_trading_pairs' := (get_trading_pairs active_exchange_markets).
Local Abbreviation session' := (session active_exchange_markets diff_message_from_exchange).
Local Abbreviation listen' :=
  (listen_for_order_book_diffs active_exchange_markets diff_message_from_exchange).

Lemma on_message_enqueues (fields : gmap string JSON) (kind : string)
    (order_book_message : OrderBookMessage) w :
  has_kind fields kind ->
  kind = "open" \/ kind = "match" \/ kind = "change"
  \/ (kind = "done" /\ is_Some (fields !! "price")) ->
  diff_message_from_exchange (JDict fields) = Ok order_book_message ->
  on_message' (object_frame fields) w = (Return tt, enqueue order_book_message w).
Proof.
  unfold has_kind, on_message, object_frame, loads.
  intros Hkind Hcases Hconv. run_coroutine. rewrite Hkind. cbn [from_option id is_None].
  assert (H : (str_eq (JStr kind) "error" = false)
              /\ str_in (JStr kind) ["open"; "match"; "change"; "done"] = true
              /\ str_eq (JStr kind) "done" && negb (dict_has fields "price") = false).
  { destruct Hcases as [->|[->|[->|[-> Hprice]]]]; repeat split; try reflexivity.
    rewrite (dict_has_true _ _ Hprice). reflexivity. }
  destruct H as (-> & -> & ->). rewrite Hconv. reflexivity.
Qed.

(** Within a session, diff messages reach the queue in the order their
    frames arrived: a run of turns in each of which a diff frame arrives
    within the message timeout and is converted appends the messages to the
    queue in the order of the turns, one bounded receive per frame, no
    request, no ping and no pause in between, and the loop goes on with the
    turns that follow. *)
Theorem message_loop_in_order (turns : list iteration) (msgs : list OrderBookMessage) :
  Forall2 delivers' turns msgs ->
  forall rest w,
    exists w',
      message_loop' (turns ++ rest) w = message_loop' rest w'
      /\ output w' = output w ++ msgs
      /\ trace w' = trace w ++ repeat (EvRecv MESSAGE_TIMEOUT) (length turns)
      /\ replies w' = replies w.
Proof.
  induction 1 as [|it msg turns msgs Hit _ IH]; intros rest w.
  - exists w. cbn. rewrite !app_nil_r. auto.
  - destruct Hit as (latency & fields & kind & Hrecv & Hlat & Hkind & Hcases & Hconv).
    cbn [app]. rewrite (message_loop_frame _ it (turns ++ rest) latency _ w Hrecv Hlat).
    unfold bind. rewrite (on_message_enqueues fields kind msg _ Hkind Hcases Hconv).
    destruct (IH rest (enqueue msg (received latency w))) as (w' & Hrun & Hout & Htr & Hrep).
    exists w'. split; [exact Hrun|]. cbn [enqueue received output trace replies length repeat] in *.
    split; [rewrite Hout, <- app_assoc; reflexivity|].
    split; [rewrite Htr, <- app_assoc; reflexivity | exact Hrep].
Qed.

(** The waits of one turn of the generator (lines 180-188), up to the
    point where the turn yields, resumes or leaves the loop: when the
    sending of the ping comes back after [lp] seconds, with the pong waiter
    or with an exception, the turn has waited at most the message timeout,
    [lp] and the ping timeout together, whatever the peer does about the
    frame and the pong.  Nothing bounds the sending of the ping itself, nor
    the closing of the socket that follows a turn that leaves the loop. *)
Theorem inner_turn_bounded_wait (it : iteration) (lp : Q) w :
  send_time (ping it) = Some lp ->
  (0 <= lp)%Q ->
  (now (snd (inner_turn it w)) <= now w + MESSAGE_TIMEOUT + lp + PING_TIMEOUT)%Q.
Proof.
  intros Hping Hlp. run_listener. revert Hping. unfold send_time.
  destruct (ping it) as [lp' pong_waiter|lp' e'|]; intros Hping;
    [injection Hping as -> | injection Hping as -> | discriminate];
    run_listener;
    (repeat match goal with
            | |- context [Qle_bool ?a ?b] =>
                let H := fresh "Hin" in
                destruct (Qle_bool a b) eqn:H; [apply Qle_bool_iff in H|]; run_listener
            | |- context [match ?x with After _ _ => _ | FailsAfter _ _ => _ | Never => _ end] =>
                destruct x as [? ?|? ?|]; run_listener
            | |- context [match ?e with TimeoutError => _ | _ => _ end] =>
                is_var e; destruct e; run_listener
            end);
    unfold MESSAGE_TIMEOUT, PING_TIMEOUT in *; cbn [fst snd now]; lra.
Qed.

(** The socket is closed when the generator or the session is left, and
    not before.  A turn of the generator that yields a frame, or resumes
    after a pong, leaves the connection open; a turn that stops the
    generator or raises out of it has closed the socket as the last thing
    it did (the [finally] of lines 194-195).  And a session that opened its
    connection and came to an end, by returning or by raising, closed the
    socket: the close is the last thing it did. *)
Theorem socket_closed_on_exit (_symbols : option (list string)) (c : cycle) w :
  (forall it w1,
      match fst (_inner_messages it w1) with
      | Return (Yield _) | Return Resume =>
          exists events,
            trace (snd (_inner_messages it w1)) = trace w1 ++ events
            /\ EvClose ∉ events
      | Return Stop | Raise _ =>
          last (trace (snd (_inner_messages it w1))) = Some EvClose
      | Unfinished => True
      end)
  /\ (forall trading_pairs lc w0,
      get_trading_pairs' _symbols w = (Return trading_pairs, w0) ->
      connect c = After lc tt ->
      fst (session' _symbols c w) <> Unfinished ->
      last (trace (snd (session' _symbols c w))) = Some EvClose).
Proof.
  split.
  - intros it w1. run_listener.
    repeat match goal with
           | |- context [Qle_bool ?a ?b] => destruct (Qle_bool a b); run_listener
           | |- context [match ?x with After _ _ => _ | FailsAfter _ _ => _ | Never => _ end] =>
               destruct x as [? ?|? ?|]; run_listener
           | |- context [match ?e with TimeoutError => _ | _ => _ end] =>
               is_var e; destruct e; run_listener
           end;
      cbn [fst snd trace];
      first [ exact I
            | apply last_snoc
            | eexists; split; [rewrite <- ?app_assoc; reflexivity|];
              intros Hin; repeat (apply elem_of_cons in Hin as [Hin|Hin]; [discriminate|]);
              inversion Hin ].
  - intros trading_pairs lc w0 Hpairs Hconnect.
    assert (Heq : session' _symbols c w
                  = async_with_ws (subscribe trading_pairs c ;; message_loop' (turns c))
                      (Build_World (replies w0) (now w0 + lc)%Q
                         (trace w0 ++ [EvConnect COINBASE_WS_FEED]) (output w0))).
    { unfold session. unfold bind at 1. rewrite Hpairs.
      unfold bind at 1, emit at 1. unfold bind at 1, await at 1. rewrite Hconnect.
      reflexivity. }
    rewrite Heq. unfold async_with_ws.
    match goal with
    | |- context [match ?body ?w1 with _ => _ end] => destruct (body w1) as [[[]|e|] w2]
    end; unfold ws_close, bind, emit, ret, raise; cbn [fst snd trace]; intros Hend;
      [apply last_snoc | apply last_snoc | contradiction].
Qed.

(** A cancellation is never swallowed inside a session.  Delivered while
    the connection is opened, while the subscription is sent, while a
    frame, the sending of the ping or its pong is awaited, it leaves the
    session as [CancelledError]; and so does the listener, at once, or
    when it is cancelled during its cooldown. *)
Theorem session_cancellation_propagates (_symbols : option (list string)) (c : cycle)
    (cycles : list cycle) (trading_pairs : list string) w w0 :
  get_trading_pairs' _symbols w = (Return trading_pairs, w0) ->
  (forall l, connect c = FailsAfter l CancelledError ->
     fst (session' _symbols c w) = Raise CancelledError)
  /\ (forall lc l, connect c = After lc tt -> send c = FailsAfter l CancelledError ->
     fst (session' _symbols c w) = Raise CancelledError)
  /\ (forall it rest l w1, recv it = FailsAfter l CancelledError ->
     Qle_bool l MESSAGE_TIMEOUT = true ->
     fst (message_loop' (it :: rest) w1) = Raise CancelledError)
  /\ (forall it rest l w1, exceeds (recv it) MESSAGE_TIMEOUT ->
     ping it = FailsAfter l CancelledError ->
     fst (message_loop' (it :: rest) w1) = Raise CancelledError)
  /\ (forall it rest lp l w1, exceeds (recv it) MESSAGE_TIMEOUT ->
     ping it = After lp (FailsAfter l CancelledError) ->
     Qle_bool l PING_TIMEOUT = true ->
     fst (message_loop' (it :: rest) w1) = Raise CancelledError)
  /\ (fst (session' _symbols c w) = Raise CancelledError ->
     fst (listen' _symbols (c :: cycles) w) = Raise CancelledError)
  /\ (forall e, fst (session' _symbols c w) = Raise e -> cancelled_in_cooldown c = true ->
     fst (listen' _symbols (c :: cycles) w) = Raise CancelledError).
Proof.
  intros Hpairs. split; [|split; [|split; [|split; [|split; [|split]]]]].
  - intros l Hconnect. unfold session, bind. rewrite Hpairs. unfold emit, await.
    rewrite Hconnect. reflexivity.
  - intros lc l Hconnect Hsend. unfold session, bind. rewrite Hpairs.
    unfold emit, await. rewrite Hconnect. unfold async_with_ws, subscribe, bind, emit, await.
    rewrite Hsend. reflexivity.
  - intros it rest l w1 Hrecv Hlat. cbn [message_loop]. run_listener.
    rewrite Hrecv, Hlat. reflexivity.
  - intros it rest l w1 Hlate Hping. cbn [message_loop].
    unfold bind at 1, _inner_messages, try_except at 1, inner_turn, try_except at 1,
      bind at 1, emit at 1.
    unfold bind at 1. rewrite (wait_for_exceeds _ _ _ Hlate). rewrite Hping. reflexivity.
  - intros it rest lp l w1 Hlate Hping Hpong. cbn [message_loop].
    unfold bind at 1, _inner_messages, try_except at 1, inner_turn, try_except at 1,
      bind at 1, emit at 1.
    unfold bind at 1. rewrite (wait_for_exceeds _ _ _ Hlate). rewrite Hping.
    run_listener. rewrite Hpong. reflexivity.
  - intros Hsession. cbn [listen_for_order_book_diffs].
    unfold bind, listen_cycle, try_except.
    destruct (session' _symbols c w) as [[[]|e|] w1]; cbn [fst] in Hsession; try discriminate.
    injection Hsession as ->. reflexivity.
  - intros e Hsession Hcancel. cbn [listen_for_order_book_diffs].
    unfold bind, listen_cycle, try_except.
    destruct (session' _symbols c w) as [[[]|e'|] w1]; cbn [fst] in Hsession; try discriminate.
    injection Hsession as ->.
    destruct e; unfold cooldown, bind, emit, raise; rewrite ?Hcancel; reflexivity.
Qed.

End SessionFacts.

(** * The further properties at work *)


(** The four reference instruments, listed and answered. *)
Lemma get_active_exchange_markets_ranking_witness :
  exists result w',
    sample_discovery
      (fresh_world JSON (Reply (sample_products reference_pairs)
                           :: map Reply reference_ticker_responses ++ []))
    = (Return result, w')
    /\ StronglySorted usd_desc result
    /\ map ticker result ≡ₚ reference_tickers
    /\ replies w' = []
    /\ requests (trace w') = products_url :: map ticker_url reference_pairs.
Proof.
  destruct (get_active_exchange_markets_ranking sample_float_of_str sample_float_of_int
              sample_from_records (sample_products reference_pairs) reference_tickers
              reference_ticker_responses []
              (fresh_world JSON (Reply (sample_products reference_pairs)
                                   :: map Reply reference_ticker_responses ++ [])))
    as (result & w' & Hrun & Hsorted & Hperm & Hrest & _ & Hreq & _).
  - reflexivity.
  - vm_compute. reflexivity.
  - repeat constructor.
  - apply (bool_decide_unpack _). vm_compute. exact I.
  - apply (bool_decide_unpack _). vm_compute. exact I.
  - reflexivity.
  - exists result, w'. repeat (split; [assumption|]). exact Hreq.
Defined.

(** A refused product list; and a ticker refused for the second of four
    products. *)
Lemma get_active_exchange_markets_aborts_witness :
  fst (sample_discovery (fresh_world JSON [status_only 503]))
  = Raise (IOError "Error fetching active Coinbase Pro markets.")
  /\ exists w',
       sample_discovery
         (fresh_world JSON
            (Reply (sample_products reference_pairs)
               :: map Reply [sample_ticker 50 9000] ++ [status_only 404; ticker_ok 10 8000]))
       = (Raise (IOError "Error fetching ticker for ETH-USD on Coinbase Pro."), w')
       /\ replies w' = [ticker_ok 10 8000]
       /\ requests (trace w') = [products_url; ticker_url "BTC-USD"; ticker_url "ETH-USD"].
Proof.
  split.
  - pose proof (proj1 (get_active_exchange_markets_aborts sample_float_of_str
                         sample_float_of_int sample_from_records
                         (fresh_world JSON [status_only 503]))) as H.
    unfold sample_discovery. rewrite (H {| status := 503; json := JNull |} []).
    + reflexivity.
    + discriminate.
    + reflexivity.
  - destruct (proj2 (get_active_exchange_markets_aborts sample_float_of_str
                       sample_float_of_int sample_from_records
                       (fresh_world JSON
                          (Reply (sample_products reference_pairs)
                             :: map Reply [sample_ticker 50 9000]
                                  ++ [status_only 404; ticker_ok 10 8000])))
                (sample_products reference_pairs)
                [ {| Index := "BTC-USD"; columns := ∅; volume := 50; price := 9000 |} ]
                [sample_ticker 50 9000] "ETH-USD" ∅ [("BTC-EUR", ∅); ("BTC-GBP", ∅)]
                {| status := 404; json := JNull |} [ticker_ok 10 8000])
      as (w' & Hrun & Hrest & _ & Hreq).
    + reflexivity.
    + vm_compute. reflexivity.
    + repeat constructor.
    + discriminate.
    + discriminate.
    + reflexivity.
    + exists w'. split; [exact Hrun|]. split; [exact Hrest | exact Hreq].
Defined.

(** The batch of five instruments: what is stored, and the pauses. *)
Lemma get_tracking_pairs_entries_witness :
  exists retval w',
    sample_tracking_pairs five_pairs (fresh_world JSON five_answers) = (Return retval, w')
    /\ forall trading_pair entry,
         retval !! trading_pair = Some entry ->
         symbol entry = trading_pair
         /\ trading_pair ∈ five_pairs
         /\ (now (fresh_world JSON five_answers) <= timestamp entry)%Q
         /\ (timestamp entry <= now w')%Q.
Proof.
  apply (get_tracking_pairs_entries sample_snapshot_message Z unit JSON 0%Z tt
           sample_convert sample_update_id sample_apply_snapshot sample_discovery
           five_pairs (fresh_world JSON five_answers)).
  - vm_compute. lia.
  - vm_compute. repeat constructor; discriminate.
Defined.

Lemma get_tracking_pairs_pacing_witness :
  sleeps (trace (snd (sample_tracking_pairs five_pairs (fresh_world JSON five_answers))))
  = [(6 # 10)%Q; (6 # 10)%Q].
Proof.
  unfold sample_tracking_pairs.
  rewrite (get_tracking_pairs_pacing sample_snapshot_message Z unit JSON 0%Z tt
             sample_convert sample_update_id sample_apply_snapshot sample_discovery
             five_pairs (fresh_world JSON five_answers)).
  - reflexivity.
  - vm_compute. lia.
  - vm_compute. repeat constructor; discriminate.
Defined.

(** A pass of the refresher over the five instruments. *)
Lemma snapshot_pass_enqueues_witness :
  exists w',
    snapshot_pass sample_snapshot_message five_pairs (fresh_world JSON five_answers)
    = (Return tt, w')
    /\ length (output w') = 2%nat
    /\ requests (trace w') = map snapshot_url five_pairs
    /\ sleeps (trace w') = repeat 5%Q 5
    /\ replies w' = []
    /\ unexpected_error_log ∈ trace w'.
Proof.
  destruct (snapshot_pass_enqueues sample_snapshot_message five_pairs
              (fresh_world JSON five_answers))
    as (w' & Hrun & Hout & Hreq & Hsl & Hrest & Hlog & _).
  - vm_compute. lia.
  - vm_compute. repeat constructor; discriminate.
  - exists w'. split; [exact Hrun|]. split; [rewrite Hout; vm_compute; reflexivity|].
    split; [exact Hreq|]. split; [exact Hsl|]. split; [exact Hrest|].
    apply Hlog. apply Exists_cons_tl, Exists_cons_hd. eexists. vm_compute. reflexivity.
Defined.

(** The pass above done at 25 s, the refresher sleeps the 3575 s that are
    left of the hour. *)
Lemma refresher_sleeps_until_next_hour_witness :
  let w1 := snd (snapshot_pass sample_snapshot_message five_pairs
                   (fresh_world JSON five_answers)) in
  now w1 = 25%Q
  /\ until_next_hour (now w1) = 3575%Q
  /\ sample_refresher 1 five_pairs (fresh_world JSON five_answers)
     = sample_refresher 0 five_pairs (slept (until_next_hour (now w1)) w1)
  /\ (now (slept (until_next_hour (now w1)) w1) == 3600)%Q.
Proof.
  cbv zeta.
  assert (Hpass : snapshot_pass sample_snapshot_message five_pairs
                    (fresh_world JSON five_answers)
                  = (Return tt, snd (snapshot_pass sample_snapshot_message five_pairs
                                       (fresh_world JSON five_answers))))
    by (vm_compute; reflexivity).
  destruct (refresher_sleeps_until_next_hour sample_discovery sample_snapshot_message
              0 (Some five_pairs) five_pairs (fresh_world JSON five_answers)
              (fresh_world JSON five_answers) _ eq_refl Hpass)
    as (Hrun & _ & _ & Hhour).
  split; [vm_compute; reflexivity|]. split; [vm_compute; reflexivity|].
  split; [exact Hrun|]. vm_compute. vm_compute in Hhour. exact Hhour.
Defined.

(** The three tasks over the market directory itself, which never touches
    the queue. *)
Lemma output_queue_only_grows_witness :
  output_grows sample_discovery
  /\ (forall cycles,
        output_grows (listen_for_order_book_diffs sample_discovery sample_diff_message
                        None cycles))
  /\ (forall passes,
        output_grows (listen_for_order_book_snapshots sample_discovery
                        sample_snapshot_message passes None))
  /\ output_grows
       (get_tracking_pairs sample_discovery sample_snapshot_message Z unit JSON 0%Z tt
          sample_convert sample_update_id sample_apply_snapshot None).
Proof.
  assert (H : output_grows sample_discovery)
    by apply output_grows_get_active_exchange_markets.
  split; [exact H|].
  exact (output_queue_only_grows sample_discovery sample_snapshot_message
           sample_diff_message Z unit JSON 0%Z tt sample_convert sample_update_id
           sample_apply_snapshot None H).
Defined.

(** A [match] frame, then an [open] frame. *)
Lemma message_loop_in_order_witness :
  exists w',
    message_loop sample_diff_message (two_frames ++ [dead_turn]) (fresh_world JSON [])
    = message_loop sample_diff_message [dead_turn] w'
    /\ output w'
       = [ JDict {[ "type" := JStr "match"; "price" := JStr "9000.5" ]};
           JDict {[ "type" := JStr "open" ]} ]
    /\ trace w' = [EvRecv MESSAGE_TIMEOUT; EvRecv MESSAGE_TIMEOUT]
    /\ replies w' = [].
Proof.
  assert (H : Forall2 (delivers sample_diff_message) two_frames
                [ JDict {[ "type" := JStr "match"; "price" := JStr "9000.5" ]};
                  JDict {[ "type" := JStr "open" ]} ]).
  { repeat constructor.
    - exists 1%Q, {[ "type" := JStr "match"; "price" := JStr "9000.5" ]}, "match".
      repeat split; auto.
    - exists 2%Q, {[ "type" := JStr "open" ]}, "open".
      repeat split; auto. }
  destruct (message_loop_in_order sample_diff_message two_frames _ H [dead_turn]
              (fresh_world JSON []))
    as (w' & Hrun & Hout & Htr & Hrep).
  exists w'. split; [exact Hrun|]. split; [exact Hout|]. split; [exact Htr | exact Hrep].
Defined.

(** The slow turn takes 33 s of the 40 s allowed, the dead turn all of
    them. *)
Lemma inner_turn_bounded_wait_witness :
  (now (snd (inner_turn slow_turn (fresh_world JSON [])))
   <= now (fresh_world JSON []) + MESSAGE_TIMEOUT + 0 + PING_TIMEOUT)%Q
  /\ now (snd (inner_turn slow_turn (fresh_world JSON []))) = (0 + 30 + 0 + 3)%Q
  /\ (now (snd (inner_turn dead_turn (fresh_world JSON [])))
      <= now (fresh_world JSON []) + MESSAGE_TIMEOUT + 0 + PING_TIMEOUT)%Q
  /\ now (snd (inner_turn dead_turn (fresh_world JSON []))) = (0 + 30 + 0 + 10)%Q.
Proof.
  split; [|split; [reflexivity|split; [|reflexivity]]].
  - apply (inner_turn_bounded_wait slow_turn 0 (fresh_world JSON []) eq_refl).
    apply Qle_refl.
  - apply (inner_turn_bounded_wait dead_turn 0 (fresh_world JSON []) eq_refl).
    apply Qle_refl.
Defined.

(** The slow turn resumes with the connection open, the dead turn stops
    with the socket closed; and the pass whose subscription the peer
    refuses by closing raises, its socket closed. *)
Lemma socket_closed_on_exit_witness :
  (exists events,
      trace (snd (_inner_messages slow_turn (fresh_world JSON []))) = [] ++ events
      /\ EvClose ∉ events)
  /\ last (trace (snd (_inner_messages dead_turn (fresh_world JSON [])))) = Some EvClose
  /\ fst (session sample_discovery sample_diff_message (Some five_pairs) refused_cycle
            (fresh_world JSON []))
     = Raise ConnectionClosed
  /\ last (trace (snd (session sample_discovery sample_diff_message (Some five_pairs)
                         refused_cycle (fresh_world JSON []))))
     = Some EvClose.
Proof.
  destruct (socket_closed_on_exit sample_discovery sample_diff_message (Some five_pairs)
              refused_cycle (fresh_world JSON [])) as [Hturn Hsession].
  split; [exact (Hturn slow_turn (fresh_world JSON []))|].
  split; [exact (Hturn dead_turn (fresh_world JSON []))|].
  split; [reflexivity|].
  apply (Hsession five_pairs 0%Q (fresh_world JSON []) eq_refl eq_refl).
  discriminate.
Defined.

(** A cancellation while the subscription is being sent. *)
Lemma session_cancellation_propagates_witness :
  let c := {| connect := After 0 tt;
              send := FailsAfter 0 CancelledError;
              turns := [];
              cancelled_in_cooldown := false |} in
  fst (session sample_discovery sample_diff_message (Some five_pairs) c (fresh_world JSON []))
  = Raise CancelledError
  /\ fst (listen_for_order_book_diffs sample_discovery sample_diff_message (Some five_pairs)
            [c; healthy_cycle] (fresh_world JSON []))
     = Raise CancelledError.
Proof.
  cbv zeta.
  destruct (session_cancellation_propagates sample_discovery sample_diff_message
              (Some five_pairs)
              {| connect := After 0 tt;
                 send := FailsAfter 0 CancelledError;
                 turns := [];
                 cancelled_in_cooldown := false |}
              [healthy_cycle] five_pairs (fresh_world JSON []) (fresh_world JSON []) eq_refl)
    as (_ & Hsend & _ & _ & _ & Hlisten & _).
  split; [exact (Hsend 0%Q 0%Q eq_refl eq_refl)|].
  exact (Hlisten (Hsend 0%Q 0%Q eq_refl eq_refl)).
Defined.

(** The refresher at work: a cancelled snapshot request ends it; a refused
    one does not. *)
Example refresher_at_work :
  fst (sample_refresher 3 ["BTC-USD"; "ETH-USD"]
         (fresh_world JSON [snapshot_ok 11; Fault CancelledError]))
  = Raise CancelledError
  /\ exists w',
       sample_refresher 1 ["BTC-USD"; "ETH-USD"]
         (fresh_world JSON [status_only 500; snapshot_ok 12])
       = (Unfinished, w')
       /\ length (output w') = 1%nat
       /\ sleeps (trace w') = [5%Q; 5%Q; 3590%Q].
Proof.
  split; [vm_compute; reflexivity|].
  eexists. split; [vm_compute; reflexivity|]. split; vm_compute; reflexivity.
Qed.

(** C10 at work: one instrument, its snapshot answered, through the builder
    and through the refresher. *)
Lemma snapshot_metadata_keys_differ_witness :
  fst (probe_tracking_pairs (ret []) ["BTC-USD"]
         (fresh_world (gmap string string) [snapshot_ok 11]))
  = Return {[ "BTC-USD" := {| symbol := "BTC-USD";
                              timestamp := 0%Q;
                              order_book := tt;
                              active_order_tracker := {[ "symbol" := "BTC-USD" ]} |} ]}
  /\ output (snd (snapshot_pass metadata_probe ["BTC-USD"]
                    (fresh_world (gmap string string) [snapshot_ok 11])))
     = [ {[ "product_id" := "BTC-USD" ]} ].
Proof.
  destruct (snapshot_metadata_keys_differ "BTC-USD") as (Hbuilder & Hrefresher & _).
  split.
  - exact (Hbuilder (gmap string string) metadata_probe unit (gmap string string) unit tt ∅
             probe_convert probe_update_id probe_apply_snapshot (ret [])
             (fresh_world (gmap string string) [snapshot_ok 11]) _ [] _ _ tt tt 0%Z tt
             eq_refl eq_refl eq_refl eq_refl eq_refl eq_refl).
  - exact (Hrefresher (gmap string string) metadata_probe
             (fresh_world (gmap string string) [snapshot_ok 11]) _ [] _
             eq_refl eq_refl eq_refl).
Defined.
